(** * Stratus ATC, X-Plane adapter plugin: telemetry publication and
      command ingestion

    A shallow embedding of [src/adapters/xplane/src/stratus_plugin.c].
    The plugin is a set of host callbacks working on process-wide globals,
    the local file system and the X-Plane SDK.  Each C routine is a
    computation in a small state monad over a [world] (operating system,
    simulator, plugin globals) that also records, after every library or
    SDK call, the event and the world it left behind, so that statements
    about "every instant" of a routine can be made. *)

From Stdlib Require Import ZArith String Ascii List DecimalString Lia.
From Stdlib Require Import PrimFloat FloatOps SpecFloat.
From stdpp Require Import gmap strings.

(** ** C library: strings and conversions *)

Module Libc.

(** The first [n] characters of [s]. *)
Fixpoint take (n : nat) (s : string) : string :=
  match n, s with
  | S n', String c s' => String c (take n' s')
  | _, _ => ""
  end.

(** [snprintf(buf, size, ...)] stores at most [size - 1] characters. *)
Definition snprintf (size : nat) (s : string) : string := take (size - 1) s.

(** [%d] and [%ld]. *)
Definition fmt_d (z : Z) : string := NilZero.string_of_int (Z.to_int z).

(** The text left by consecutive [fprintf] calls. *)
Definition cat (ls : list string) : string := fold_right String.append "" ls.

End Libc.

(** The two characters the format strings escape: newline and double quote. *)
Definition nl : string := String "010"%char "".
Definition dq : string := String "034"%char "".

(** ** The world around the plugin *)

(** What the plugin sends down its own log stream: a session header, a
    session footer and levelled lines.  The bytes go to the log file (see
    [log_text]); [log_out] keeps the entries themselves, in order. *)
Inductive log_entry :=
| LogHeader
| LogFooter
| LogLine (level msg : string).

(** The operating system as the plugin sees it. *)
Record os := mkOs {
  files : gmap string string;   (* regular files: path to content *)
  can_open : string -> bool;    (* does fopen succeed on this path? *)
  quota : option nat;           (* bytes the disk still takes; None: no limit *)
  clock : Z;                    (* time(NULL) *)
  strftime : string -> Z -> string;  (* strftime of localtime, by format *)
  home : option string;         (* $HOME, else the passwd entry's directory *)
  log_out : list log_entry      (* what went down the plugin's log stream *)
}.

(** X-Plane.  A dataref handle is the dataref's path; C [float]s are held
    as the binary64 value they promote to when passed to [fprintf]. *)
Record simulator := mkSim {
  sim_has : string -> bool;     (* XPLMFindDataRef finds the path *)
  sim_d : string -> float;      (* XPLMGetDatad *)
  sim_f : string -> float;      (* XPLMGetDataf *)
  sim_i : string -> Z;          (* XPLMGetDatai *)
  sim_acf_file : string;        (* file name of aircraft 0 *)
  loops : gmap nat float;       (* registered flight loops, with their interval *)
  next_loop : nat               (* the next XPLMFlightLoopID handed out *)
}.

(** The [static XPLMDataRef dr_...] globals. *)
Inductive dataref_var :=
| dr_lat | dr_lon | dr_alt_msl | dr_alt_agl
| dr_hdg_mag | dr_hdg_true | dr_pitch | dr_roll
| dr_gnd_speed | dr_ias | dr_tas | dr_vs
| dr_on_ground | dr_paused
| dr_com1_freq | dr_com1_stdby | dr_com2_freq | dr_com2_stdby
| dr_nav1_freq | dr_nav2_freq
| dr_xpdr_code | dr_xpdr_mode
| dr_ap_alt | dr_ap_hdg | dr_ap_vs.

(** The plugin's globals; [None] and [false] stand for [NULL]. *)
Record globals := mkGlobals {
  g_data_dir : string;
  g_input_file : string;              (* we write here (telemetry) *)
  g_output_file : string;             (* we read here (commands) *)
  g_log_file : string;
  dr : dataref_var -> option string;
  g_flight_loop_id : option nat;
  g_log_fp : bool
}.

Record world := mkWorld {
  w_os : os;
  w_sim : simulator;
  w_g : globals
}.

Definition with_os (f : os -> os) (w : world) : world :=
  mkWorld (f (w_os w)) (w_sim w) (w_g w).
Definition with_sim (f : simulator -> simulator) (w : world) : world :=
  mkWorld (w_os w) (f (w_sim w)) (w_g w).
Definition with_g (f : globals -> globals) (w : world) : world :=
  mkWorld (w_os w) (w_sim w) (f (w_g w)).

Definition set_files (fs : gmap string string) (o : os) : os :=
  mkOs fs (can_open o) (quota o) (clock o) (strftime o) (home o) (log_out o).
Definition set_quota (q : option nat) (o : os) : os :=
  mkOs (files o) (can_open o) q (clock o) (strftime o) (home o) (log_out o).
Definition set_log_out (l : list log_entry) (o : os) : os :=
  mkOs (files o) (can_open o) (quota o) (clock o) (strftime o) (home o) l.

Definition set_loops (l : gmap nat float) (n : nat) (s : simulator) : simulator :=
  mkSim (sim_has s) (sim_d s) (sim_f s) (sim_i s) (sim_acf_file s) l n.

Definition set_paths (d i o l : string) (g : globals) : globals :=
  mkGlobals d i o l (dr g) (g_flight_loop_id g) (g_log_fp g).
Definition set_dr (h : dataref_var -> option string) (g : globals) : globals :=
  mkGlobals (g_data_dir g) (g_input_file g) (g_output_file g) (g_log_file g)
            h (g_flight_loop_id g) (g_log_fp g).
Definition set_flight_loop_id (i : option nat) (g : globals) : globals :=
  mkGlobals (g_data_dir g) (g_input_file g) (g_output_file g) (g_log_file g)
            (dr g) i (g_log_fp g).
Definition set_log_fp (b : bool) (g : globals) : globals :=
  mkGlobals (g_data_dir g) (g_input_file g) (g_output_file g) (g_log_file g)
            (dr g) (g_flight_loop_id g) b.

(** ** Events and the monad *)

Inductive routine :=
| RXPluginStart | RXPluginStop | RXPluginEnable | RXPluginDisable
| RFlightLoopCallback | RWriteTelemetryJSON | RReadCommandsJSONL.

Inductive event :=
| Call (r : routine)                        (* a routine of the plugin is entered *)
| Fopen (path : string) (ok : bool)
| Fprintf (path : string) (text stored : string)
| Fclose (path : string)
| Rename (src dst : string) (ok : bool)
| CreateFlightLoop (id : nat)
| DestroyFlightLoop (id : nat)
| ScheduleFlightLoop (id : nat) (interval : float)
| LogWrite (e : log_entry)
| Apply (record : string).                  (* a command record handed to the applier *)

(** What a routine leaves: the events in order, each with the world after it. *)
Definition history := list (event * world).

Definition M (A : Type) : Type := world -> A * world * history.

Global Instance M_ret : MRet M := fun A a w => (a, w, []).
Global Instance M_bind : MBind M := fun A B f m w =>
  let r1 := m w in
  let r2 := f r1.1.1 r1.1.2 in
  (r2.1.1, r2.1.2, r1.2 ++ r2.2).

Definition get : M world := fun w => (w, w, []).
Definition modify (f : world -> world) : M unit := fun w => (tt, f w, []).
Definition emit (e : event) (f : world -> world) : M unit :=
  fun w => (tt, f w, [(e, f w)]).
Definition enter (r : routine) : M unit := emit (Call r) id.

Definition result {A} (x : A * world * history) : A := x.1.1.
Definition final {A} (x : A * world * history) : world := x.1.2.
Definition trace {A} (x : A * world * history) : history := x.2.
Definition events {A} (x : A * world * history) : list event := (trace x).*1.

(** ** C library and SDK calls *)

(** [fopen(path, "w")]: on success the file exists and is empty. *)
Definition fopen_w (path : string) : M bool := fun w =>
  if can_open (w_os w) path then
    let w' := with_os (fun o => set_files (<[path := ""]> (files o)) o) w in
    (true, w', [(Fopen path true, w')])
  else (false, w, [(Fopen path false, w)]).

(** [fprintf] on a stream opened on [path].  Its result is not looked at by
    the plugin.  When the disk runs out, only the bytes that still fit are
    stored. *)
Definition fprintf (path text : string) : M unit := fun w =>
  let o := w_os w in
  let stored := match quota o with None => text | Some n => Libc.take n text end in
  let q' := match quota o with
            | None => None
            | Some n => Some (n - String.length stored)
            end in
  let old := default "" (files o !! path) in
  let w' := with_os (fun o => set_quota q' (set_files (<[path := old +:+ stored]> (files o)) o)) w in
  (tt, w', [(Fprintf path text stored, w')]).

Fixpoint fprintf_all (path : string) (lines : list string) : M unit :=
  match lines with
  | [] => mret tt
  | l :: ls => fprintf path l;; fprintf_all path ls
  end.

Definition fclose (path : string) : M unit := emit (Fclose path) id.

(** [rename(src, dst)]: [dst] takes the content of [src] in one step and
    [src] is gone; without [src] nothing changes.  The result is not looked
    at by the plugin. *)
Definition rename (src dst : string) : M unit := fun w =>
  match files (w_os w) !! src with
  | Some c =>
      let w' := with_os (fun o => set_files (<[dst := c]> (delete src (files o))) o) w in
      (tt, w', [(Rename src dst true, w')])
  | None => (tt, w, [(Rename src dst false, w)])
  end.

Definition XPLMFindDataRef (s : simulator) (path : string) : option string :=
  if sim_has s path then Some path else None.

Definition XPLMCreateFlightLoop : M nat := fun w =>
  let s := w_sim w in
  let id := next_loop s in
  let w' := with_sim (set_loops (<[id := 0%float]> (loops s)) (S id)) w in
  (id, w', [(CreateFlightLoop id, w')]).

Definition XPLMDestroyFlightLoop (id : nat) : M unit :=
  emit (DestroyFlightLoop id)
       (with_sim (fun s => set_loops (delete id (loops s)) (next_loop s) s)).

Definition XPLMScheduleFlightLoop (id : nat) (interval : float) : M unit :=
  emit (ScheduleFlightLoop id interval)
       (with_sim (fun s =>
          match loops s !! id with
          | Some _ => set_loops (<[id := interval]> (loops s)) (next_loop s) s
          | None => s
          end)).

(** ** Logging *)

(** The text of a log entry: the session lines carry the date and time,
    a levelled line the time of day, its level and the message. *)
Definition log_text (o : os) (e : log_entry) : string :=
  match e with
  | LogHeader =>
      nl +:+ "=== StratusATC Session Started: "
         +:+ strftime o "%Y-%m-%d %H:%M:%S" (clock o) +:+ " ===" +:+ nl
  | LogFooter =>
      "=== Session Ended: " +:+ strftime o "%Y-%m-%d %H:%M:%S" (clock o) +:+ " ===" +:+ nl
  | LogLine level msg =>
      "[" +:+ strftime o "%H:%M:%S" (clock o) +:+ "] [" +:+ level +:+ "] " +:+ msg +:+ nl
  end.

(** [text] appended to the file at [path], as far as the disk has room. *)
Definition append_file (path text : string) (o : os) : os :=
  let stored := match quota o with None => text | Some n => Libc.take n text end in
  set_quota (match quota o with
             | None => None
             | Some n => Some (n - String.length stored)
             end)
            (set_files (<[path := default "" (files o !! path) +:+ stored]> (files o)) o).

(** The world after an entry went down the log stream: its text is at the
    end of the log file. *)
Definition logged (e : log_entry) (w : world) : world :=
  with_os (fun o => set_log_out (log_out o ++ [e])
                      (append_file (g_log_file (w_g w)) (log_text o e) o)) w.

(** The [fprintf] calls of one entry on [g_log_fp], and the [fflush]. *)
Definition log_put (e : log_entry) : M unit := emit (LogWrite e) (logged e).

(** The world after [fopen(g_log_file, "a")] succeeded: the file is there,
    with what it held, and [g_log_fp] is set. *)
Definition log_opened (w : world) : world :=
  with_g (set_log_fp true)
    (with_os (fun o =>
       set_files (<[g_log_file (w_g w) := default "" (files o !! g_log_file (w_g w))]>
                    (files o)) o) w).

Definition LogOpen : M unit :=
  w ← get;
  if g_log_fp (w_g w) then mret tt
  else if can_open (w_os w) (g_log_file (w_g w)) then
    emit (Fopen (g_log_file (w_g w)) true) log_opened;;
    log_put LogHeader
  else emit (Fopen (g_log_file (w_g w)) false) id.

Definition LogClose : M unit :=
  w ← get;
  if g_log_fp (w_g w) then
    log_put LogFooter;;
    emit (Fclose (g_log_file (w_g w))) (with_g (set_log_fp false))
  else mret tt.

Definition Log (level msg : string) : M unit :=
  w ← get;
  if g_log_fp (w_g w) then log_put (LogLine level msg) else mret tt.

Definition LOG_INFO : string -> M unit := Log "INFO".
Definition LOG_ERROR : string -> M unit := Log "ERROR".

(** ** Plugin metadata *)

Definition PLUGIN_NAME : string := "Stratus ATC".
Definition PLUGIN_SIG : string := "community.stratus.xplane.atc".
Definition PLUGIN_DESC : string := "Bridges X-Plane to Stratus ATC native client".
Definition PLUGIN_VERSION : string := "0.2.0".

(** ** Initialisation *)

(** The data directory and the three file paths (the branch for Linux;
    the others differ in the directory only).  The directory itself is not
    modelled: whether a file in it can be opened is [can_open]'s answer. *)
Definition InitFilePaths : M unit :=
  w ← get;
  let d := match home (w_os w) with
           | Some h => Libc.snprintf 512 (h +:+ "/.local/share/StratusATC")
           | None => Libc.snprintf 512 "/tmp/StratusATC"
           end in
  modify (with_g (set_paths d
                    (Libc.snprintf 1024 (d +:+ "/" +:+ "simAPI_input.json"))
                    (Libc.snprintf 1024 (d +:+ "/" +:+ "simAPI_output.jsonl"))
                    (Libc.snprintf 1024 (d +:+ "/" +:+ "stratus_atc.log")))).

(** The dataref each global is bound to. *)
Definition dataref_path (v : dataref_var) : string :=
  match v with
  | dr_lat => "sim/flightmodel/position/latitude"
  | dr_lon => "sim/flightmodel/position/longitude"
  | dr_alt_msl => "sim/flightmodel/position/elevation"
  | dr_alt_agl => "sim/flightmodel/position/y_agl"
  | dr_hdg_mag => "sim/flightmodel/position/mag_psi"
  | dr_hdg_true => "sim/flightmodel/position/true_psi"
  | dr_pitch => "sim/flightmodel/position/theta"
  | dr_roll => "sim/flightmodel/position/phi"
  | dr_gnd_speed => "sim/flightmodel/position/groundspeed"
  | dr_ias => "sim/flightmodel/position/indicated_airspeed"
  | dr_tas => "sim/flightmodel/position/true_airspeed"
  | dr_vs => "sim/flightmodel/position/vh_ind_fpm"
  | dr_on_ground => "sim/flightmodel/failures/onground_any"
  | dr_paused => "sim/time/paused"
  | dr_com1_freq => "sim/cockpit2/radios/actuators/com1_frequency_hz_833"
  | dr_com1_stdby => "sim/cockpit2/radios/actuators/com1_standby_frequency_hz_833"
  | dr_com2_freq => "sim/cockpit2/radios/actuators/com2_frequency_hz_833"
  | dr_com2_stdby => "sim/cockpit2/radios/actuators/com2_standby_frequency_hz_833"
  | dr_nav1_freq => "sim/cockpit2/radios/actuators/nav1_frequency_hz"
  | dr_nav2_freq => "sim/cockpit2/radios/actuators/nav2_frequency_hz"
  | dr_xpdr_code => "sim/cockpit/radios/transponder_code"
  | dr_xpdr_mode => "sim/cockpit/radios/transponder_mode"
  | dr_ap_alt => "sim/cockpit/autopilot/altitude"
  | dr_ap_hdg => "sim/cockpit/autopilot/heading_mag"
  | dr_ap_vs => "sim/cockpit/autopilot/vertical_velocity"
  end.

Definition InitDataRefs : M unit :=
  w ← get;
  modify (with_g (set_dr (fun v => XPLMFindDataRef (w_sim w) (dataref_path v))));;
  LOG_INFO "DataRefs initialized".

(** ** Sampling *)

(** [dr_x ? XPLMGetDatad(dr_x) : 0.0] and its [float] and [int] forms. *)
Definition read_d (w : world) (v : dataref_var) : float :=
  match dr (w_g w) v with Some h => sim_d (w_sim w) h | None => 0%float end.
Definition read_f (w : world) (v : dataref_var) : float :=
  match dr (w_g w) v with Some h => sim_f (w_sim w) h | None => 0%float end.
Definition read_i (w : world) (v : dataref_var) : Z :=
  match dr (w_g w) v with Some h => sim_i (w_sim w) h | None => 0%Z end.

(** The locals of [WriteTelemetryJSON]. *)
Record telemetry := mkTelemetry {
  now : Z;
  lat : float; lon : float; alt_msl : float; alt_agl : float;
  hdg_mag : float; hdg_true : float; pitch : float; roll : float;
  gnd_spd : float; ias : float; tas : float; vs : float;
  on_gnd : Z; paused : Z;
  com1 : Z; com1_sb : Z; com2 : Z; com2_sb : Z; nav1 : Z; nav2 : Z;
  xpdr : Z; xpdr_mode : Z;
  ap_alt : float; ap_hdg : float; ap_vs : float;
  acf_file : string
}.

Definition read_telemetry (w : world) : telemetry :=
  {| now := clock (w_os w);
     lat := read_d w dr_lat; lon := read_d w dr_lon;
     alt_msl := read_d w dr_alt_msl; alt_agl := read_f w dr_alt_agl;
     hdg_mag := read_f w dr_hdg_mag; hdg_true := read_f w dr_hdg_true;
     pitch := read_f w dr_pitch; roll := read_f w dr_roll;
     gnd_spd := read_f w dr_gnd_speed; ias := read_f w dr_ias;
     tas := read_f w dr_tas; vs := read_f w dr_vs;
     on_gnd := read_i w dr_on_ground; paused := read_i w dr_paused;
     com1 := read_i w dr_com1_freq; com1_sb := read_i w dr_com1_stdby;
     com2 := read_i w dr_com2_freq; com2_sb := read_i w dr_com2_stdby;
     nav1 := read_i w dr_nav1_freq; nav2 := read_i w dr_nav2_freq;
     xpdr := read_i w dr_xpdr_code; xpdr_mode := read_i w dr_xpdr_mode;
     ap_alt := read_f w dr_ap_alt; ap_hdg := read_f w dr_ap_hdg;
     ap_vs := read_f w dr_ap_vs;
     acf_file := sim_acf_file (w_sim w) |}.

(** [x ? "true" : "false"] *)
Definition c_bool (x : Z) : string := if (x =? 0)%Z then "false" else "true".

Section Plugin.

(** [printf]'s [%.<p>f] conversion of a double is the C library's. *)
Variable printf_f : nat -> float -> string.

(** The text of each [fprintf] call of [WriteTelemetryJSON], in order. *)
Definition telemetry_lines (t : telemetry) : list string :=
  [ "{" +:+ nl;
    "  " +:+ dq +:+ "timestamp" +:+ dq +:+ ": " +:+ Libc.fmt_d (now t) +:+ "," +:+ nl;
    "  " +:+ dq +:+ "simulator" +:+ dq +:+ ": " +:+ dq +:+ "X-Plane" +:+ dq +:+ "," +:+ nl;
    "  " +:+ dq +:+ "aircraft" +:+ dq +:+ ": " +:+ dq +:+ acf_file t +:+ dq +:+ "," +:+ nl;
    "  " +:+ dq +:+ "position" +:+ dq +:+ ": {" +:+ nl;
    "    " +:+ dq +:+ "latitude" +:+ dq +:+ ": " +:+ printf_f 8 (lat t) +:+ "," +:+ nl;
    "    " +:+ dq +:+ "longitude" +:+ dq +:+ ": " +:+ printf_f 8 (lon t) +:+ "," +:+ nl;
    "    " +:+ dq +:+ "altitude_msl_m" +:+ dq +:+ ": " +:+ printf_f 2 (alt_msl t) +:+ "," +:+ nl;
    "    " +:+ dq +:+ "altitude_agl_m" +:+ dq +:+ ": " +:+ printf_f 2 (alt_agl t) +:+ nl;
    "  }," +:+ nl;
    "  " +:+ dq +:+ "orientation" +:+ dq +:+ ": {" +:+ nl;
    "    " +:+ dq +:+ "heading_mag" +:+ dq +:+ ": " +:+ printf_f 2 (hdg_mag t) +:+ "," +:+ nl;
    "    " +:+ dq +:+ "heading_true" +:+ dq +:+ ": " +:+ printf_f 2 (hdg_true t) +:+ "," +:+ nl;
    "    " +:+ dq +:+ "pitch" +:+ dq +:+ ": " +:+ printf_f 2 (pitch t) +:+ "," +:+ nl;
    "    " +:+ dq +:+ "roll" +:+ dq +:+ ": " +:+ printf_f 2 (roll t) +:+ nl;
    "  }," +:+ nl;
    "  " +:+ dq +:+ "speed" +:+ dq +:+ ": {" +:+ nl;
    "    " +:+ dq +:+ "ground_speed_mps" +:+ dq +:+ ": " +:+ printf_f 2 (gnd_spd t) +:+ "," +:+ nl;
    "    " +:+ dq +:+ "ias_kts" +:+ dq +:+ ": " +:+ printf_f 2 (ias t) +:+ "," +:+ nl;
    "    " +:+ dq +:+ "tas_mps" +:+ dq +:+ ": " +:+ printf_f 2 (tas t) +:+ "," +:+ nl;
    "    " +:+ dq +:+ "vertical_speed_fpm" +:+ dq +:+ ": " +:+ printf_f 2 (vs t) +:+ nl;
    "  }," +:+ nl;
    "  " +:+ dq +:+ "radios" +:+ dq +:+ ": {" +:+ nl;
    "    " +:+ dq +:+ "com1_hz" +:+ dq +:+ ": " +:+ Libc.fmt_d (com1 t) +:+ "," +:+ nl;
    "    " +:+ dq +:+ "com1_standby_hz" +:+ dq +:+ ": " +:+ Libc.fmt_d (com1_sb t) +:+ "," +:+ nl;
    "    " +:+ dq +:+ "com2_hz" +:+ dq +:+ ": " +:+ Libc.fmt_d (com2 t) +:+ "," +:+ nl;
    "    " +:+ dq +:+ "com2_standby_hz" +:+ dq +:+ ": " +:+ Libc.fmt_d (com2_sb t) +:+ "," +:+ nl;
    "    " +:+ dq +:+ "nav1_hz" +:+ dq +:+ ": " +:+ Libc.fmt_d (nav1 t) +:+ "," +:+ nl;
    "    " +:+ dq +:+ "nav2_hz" +:+ dq +:+ ": " +:+ Libc.fmt_d (nav2 t) +:+ nl;
    "  }," +:+ nl;
    "  " +:+ dq +:+ "transponder" +:+ dq +:+ ": {" +:+ nl;
    "    " +:+ dq +:+ "code" +:+ dq +:+ ": " +:+ Libc.fmt_d (xpdr t) +:+ "," +:+ nl;
    "    " +:+ dq +:+ "mode" +:+ dq +:+ ": " +:+ Libc.fmt_d (xpdr_mode t) +:+ nl;
    "  }," +:+ nl;
    "  " +:+ dq +:+ "autopilot" +:+ dq +:+ ": {" +:+ nl;
    "    " +:+ dq +:+ "altitude_ft" +:+ dq +:+ ": " +:+ printf_f 0 (ap_alt t) +:+ "," +:+ nl;
    "    " +:+ dq +:+ "heading" +:+ dq +:+ ": " +:+ printf_f 0 (ap_hdg t) +:+ "," +:+ nl;
    "    " +:+ dq +:+ "vs_fpm" +:+ dq +:+ ": " +:+ printf_f 0 (ap_vs t) +:+ nl;
    "  }," +:+ nl;
    "  " +:+ dq +:+ "state" +:+ dq +:+ ": {" +:+ nl;
    "    " +:+ dq +:+ "on_ground" +:+ dq +:+ ": " +:+ c_bool (on_gnd t) +:+ "," +:+ nl;
    "    " +:+ dq +:+ "paused" +:+ dq +:+ ": " +:+ c_bool (paused t) +:+ nl;
    "  }" +:+ nl;
    "}" +:+ nl ].

(** ** The flight loop *)

(** Write to a temporary file first, then rename. *)
Definition WriteTelemetryJSON : M unit :=
  enter RWriteTelemetryJSON;;
  w ← get;
  let tmp_file := Libc.snprintf 1024 (g_input_file (w_g w) +:+ ".tmp") in
  f ← fopen_w tmp_file;
  if negb f then
    LOG_ERROR ("Failed to open temp file for writing: " +:+ tmp_file)
  else
    w' ← get;
    fprintf_all tmp_file (telemetry_lines (read_telemetry w'));;
    fclose tmp_file;;
    rename tmp_file (g_input_file (w_g w)).

(** The body is a TODO in the source: nothing is read, nothing is applied. *)
Definition ReadCommandsJSONL : M unit :=
  enter RReadCommandsJSONL.

Definition FlightLoopCallback : M float :=
  enter RFlightLoopCallback;;
  WriteTelemetryJSON;;
  ReadCommandsJSONL;;
  mret 1%float.

(** ** Required plugin callbacks *)

Definition XPluginStart : M (string * string * string * Z) :=
  enter RXPluginStart;;
  InitFilePaths;;
  LogOpen;;
  LOG_INFO ("Plugin starting (version " +:+ PLUGIN_VERSION +:+ ")");;
  w ← get;
  LOG_INFO ("Data directory: " +:+ g_data_dir (w_g w));;
  InitDataRefs;;
  id ← XPLMCreateFlightLoop;
  modify (with_g (set_flight_loop_id (Some id)));;
  LOG_INFO "Plugin started successfully";;
  mret (PLUGIN_NAME, PLUGIN_SIG, PLUGIN_DESC, 1%Z).

Definition XPluginStop : M unit :=
  enter RXPluginStop;;
  w ← get;
  match g_flight_loop_id (w_g w) with
  | Some id =>
      XPLMDestroyFlightLoop id;;
      modify (with_g (set_flight_loop_id None))
  | None => mret tt
  end;;
  LOG_INFO "Plugin stopped";;
  LogClose.

Definition XPluginEnable : M Z :=
  enter RXPluginEnable;;
  w ← get;
  match g_flight_loop_id (w_g w) with
  | Some id => XPLMScheduleFlightLoop id 1%float
  | None => mret tt
  end;;
  LOG_INFO "Plugin enabled - telemetry streaming started";;
  mret 1%Z.

Definition XPluginDisable : M unit :=
  enter RXPluginDisable;;
  w ← get;
  match g_flight_loop_id (w_g w) with
  | Some id => XPLMScheduleFlightLoop id 0%float
  | None => mret tt
  end;;
  LOG_INFO "Plugin disabled - telemetry streaming stopped".

(** Messages from X-Plane or other plugins are ignored. *)
Definition XPluginReceiveMessage (inFromWho inMessage : Z) : M unit := mret tt.

End Plugin.

(** ** The snapshot document of the interface description

    A snapshot is a document of top-level fields and one level of named
    groups, whose leaves are integers, fixed-point numbers, booleans or
    strings.  [snapshot_document] is the document the description asks
    for; [print_document] lays such a document out as text, one line per
    field and two per group.  Strings are printed as they are, without
    escaping, which is what [%s] does. *)

Inductive leaf :=
| LInt (z : Z)
| LNum (prec : nat) (x : float)
| LBool (b : bool)
| LStr (s : string).

Inductive member :=
| Field (key : string) (v : leaf)
| Group (key : string) (leaves : list (string * leaf)).

Inductive kind := KInteger | KNumber | KBoolean | KString.

Inductive shape :=
| SField (key : string) (k : kind)
| SGroup (key : string) (leaves : list (string * kind)).

Definition leaf_kind (v : leaf) : kind :=
  match v with
  | LInt _ => KInteger
  | LNum _ _ => KNumber
  | LBool _ => KBoolean
  | LStr _ => KString
  end.

Definition member_shape (m : member) : shape :=
  match m with
  | Field k v => SField k (leaf_kind v)
  | Group k ls => SGroup k (map (fun kv => (kv.1, leaf_kind kv.2)) ls)
  end.

(** The fixed schema: the top-level fields and the groups with their leaves. *)
Definition snapshot_schema : list shape :=
  [ SField "timestamp" KInteger;
    SField "simulator" KString;
    SField "aircraft" KString;
    SGroup "position"
      [("latitude", KNumber); ("longitude", KNumber);
       ("altitude_msl_m", KNumber); ("altitude_agl_m", KNumber)];
    SGroup "orientation"
      [("heading_mag", KNumber); ("heading_true", KNumber);
       ("pitch", KNumber); ("roll", KNumber)];
    SGroup "speed"
      [("ground_speed_mps", KNumber); ("ias_kts", KNumber);
       ("tas_mps", KNumber); ("vertical_speed_fpm", KNumber)];
    SGroup "radios"
      [("com1_hz", KInteger); ("com1_standby_hz", KInteger);
       ("com2_hz", KInteger); ("com2_standby_hz", KInteger);
       ("nav1_hz", KInteger); ("nav2_hz", KInteger)];
    SGroup "transponder" [("code", KInteger); ("mode", KInteger)];
    SGroup "autopilot"
      [("altitude_ft", KNumber); ("heading", KNumber); ("vs_fpm", KNumber)];
    SGroup "state" [("on_ground", KBoolean); ("paused", KBoolean)] ].

Definition snapshot_document (t : telemetry) : list member :=
  [ Field "timestamp" (LInt (now t));
    Field "simulator" (LStr "X-Plane");
    Field "aircraft" (LStr (acf_file t));
    Group "position"
      [("latitude", LNum 8 (lat t)); ("longitude", LNum 8 (lon t));
       ("altitude_msl_m", LNum 2 (alt_msl t)); ("altitude_agl_m", LNum 2 (alt_agl t))];
    Group "orientation"
      [("heading_mag", LNum 2 (hdg_mag t)); ("heading_true", LNum 2 (hdg_true t));
       ("pitch", LNum 2 (pitch t)); ("roll", LNum 2 (roll t))];
    Group "speed"
      [("ground_speed_mps", LNum 2 (gnd_spd t)); ("ias_kts", LNum 2 (ias t));
       ("tas_mps", LNum 2 (tas t)); ("vertical_speed_fpm", LNum 2 (vs t))];
    Group "radios"
      [("com1_hz", LInt (com1 t)); ("com1_standby_hz", LInt (com1_sb t));
       ("com2_hz", LInt (com2 t)); ("com2_standby_hz", LInt (com2_sb t));
       ("nav1_hz", LInt (nav1 t)); ("nav2_hz", LInt (nav2 t))];
    Group "transponder" [("code", LInt (xpdr t)); ("mode", LInt (xpdr_mode t))];
    Group "autopilot"
      [("altitude_ft", LNum 0 (ap_alt t)); ("heading", LNum 0 (ap_hdg t));
       ("vs_fpm", LNum 0 (ap_vs t))];
    Group "state"
      [("on_ground", LBool (negb (on_gnd t =? 0)%Z));
       ("paused", LBool (negb (paused t =? 0)%Z))] ].

(** The leaf stored under [group.key], if the document has one. *)
Definition doc_lookup (d : list member) (group key : string) : option leaf :=
  match find (fun m => match m with
                       | Group g _ => String.eqb g group
                       | Field _ _ => false
                       end) d with
  | Some (Group _ ls) =>
      match find (fun kv => String.eqb kv.1 key) ls with
      | Some kv => Some kv.2
      | None => None
      end
  | _ => None
  end.

(** The member names a reader of the text finds at the top level of the
    document: the strings followed by a colon at depth one.  Inside a
    string a backslash escapes the next character and an unescaped double
    quote ends the string. *)
Fixpoint scan_keys (s : string) (depth : nat) (in_str esc : bool)
    (cur last : string) : list string :=
  match s with
  | EmptyString => []
  | String c s' =>
      if in_str then
        if esc then scan_keys s' depth true false (String c cur) last
        else if Ascii.eqb c "\"%char then scan_keys s' depth true true (String c cur) last
        else if Ascii.eqb c "034"%char
             then scan_keys s' depth false false "" (String.rev cur)
        else scan_keys s' depth true false (String c cur) last
      else
        if Ascii.eqb c "034"%char then scan_keys s' depth true false "" last
        else if Ascii.eqb c "{"%char then scan_keys s' (S depth) false false "" last
        else if Ascii.eqb c "}"%char then scan_keys s' (pred depth) false false "" last
        else if Ascii.eqb c ":"%char then
          (if Nat.eqb depth 1 then [last] else [])
            ++ scan_keys s' depth false false "" last
        else scan_keys s' depth false false "" last
  end.

Definition top_level_keys (text : string) : list string :=
  scan_keys text 0 false false "" "".

Section Printer.

Variable printf_f : nat -> float -> string.

(** A leaf, followed by [rest]. *)
Definition print_leaf (v : leaf) (rest : string) : string :=
  match v with
  | LInt z => Libc.fmt_d z +:+ rest
  | LNum p x => printf_f p x +:+ rest
  | LBool b => (if b then "true" else "false") +:+ rest
  | LStr s => dq +:+ s +:+ dq +:+ rest
  end.

(** The members of an object, one per line, separated by commas. *)
Fixpoint print_leaves (indent : string) (ls : list (string * leaf)) : list string :=
  match ls with
  | [] => []
  | [kv] => [indent +:+ dq +:+ kv.1 +:+ dq +:+ ": " +:+ print_leaf kv.2 nl]
  | kv :: rest =>
      (indent +:+ dq +:+ kv.1 +:+ dq +:+ ": " +:+ print_leaf kv.2 ("," +:+ nl))
        :: print_leaves indent rest
  end.

Fixpoint print_members (ms : list member) : list string :=
  match ms with
  | [] => []
  | m :: rest =>
      let sep := match rest with [] => "" | _ => "," end in
      match m with
      | Field k v => ["  " +:+ dq +:+ k +:+ dq +:+ ": " +:+ print_leaf v (sep +:+ nl)]
      | Group k ls =>
          ("  " +:+ dq +:+ k +:+ dq +:+ ": {" +:+ nl)
            :: print_leaves "    " ls ++ ["  }" +:+ sep +:+ nl]
      end ++ print_members rest
  end.

Definition print_document (d : list member) : list string :=
  ("{" +:+ nl) :: print_members d ++ ["}" +:+ nl].

End Printer.

(** ** The command log of the interface description

    The log is newline-delimited: a record is complete when its newline is
    there, and what follows the last newline is the unterminated fragment. *)

(** [split_log acc s]: the complete records of [acc ++ s] that end in [s],
    in order, and the fragment left over; [acc] holds, reversed, the
    characters of the line being read. *)
Fixpoint split_log (acc : string) (s : string) : list string * string :=
  match s with
  | EmptyString => ([], String.rev acc)
  | String c s' =>
      if Ascii.eqb c "010"%char then
        let r := split_log "" s' in (String.rev acc :: r.1, r.2)
      else split_log (String c acc) s'
  end.

Definition complete_records (log : string) : list string := (split_log "" log).1.
Definition trailing_fragment (log : string) : string := (split_log "" log).2.

(** The client appends one record, with its newline, to the command log. *)
Definition client_append (record : string) (w : world) : world :=
  with_os (fun o =>
    set_files (<[g_output_file (w_g w) :=
                   default "" (files o !! g_output_file (w_g w)) +:+ record +:+ nl]>
               (files o)) o) w.

(** The client writes bytes to the command log without a newline. *)
Definition client_write (bytes : string) (w : world) : world :=
  with_os (fun o =>
    set_files (<[g_output_file (w_g w) :=
                   default "" (files o !! g_output_file (w_g w)) +:+ bytes]>
               (files o)) o) w.

(** The records a run handed to the applier, in order. *)
Definition delivered (h : history) : list string :=
  omap (fun ew => match ew.1 with Apply r => Some r | _ => None end) h.

(** The routines of the plugin a run entered, in order. *)
Definition calls (h : history) : list routine :=
  omap (fun ew => match ew.1 with Call r => Some r | _ => None end) h.

(** The command log as a reader of the file sees it. *)
Definition command_log (w : world) : string :=
  default "" (files (w_os w) !! g_output_file (w_g w)).

(** ** Concrete worlds and a reference formatter *)

Definition pad_left (n : nat) (s : string) : string :=
  String.string_of_list_ascii (repeat "0"%char (n - String.length s)) +:+ s.

(** [num / den] to [p] decimals, rounded to nearest, ties to even. *)
Definition fixed_of (p : nat) (neg : bool) (num den : Z) : string :=
  let scaled := (num * 10 ^ Z.of_nat p)%Z in
  let q := (scaled / den)%Z in
  let r := (scaled mod den)%Z in
  let q' := if (den <? 2 * r)%Z then (q + 1)%Z
            else if ((den =? 2 * r)%Z && Z.odd q)%bool then (q + 1)%Z else q in
  (if neg then "-" else "") +:+ Libc.fmt_d (q' / 10 ^ Z.of_nat p) +:+
  match p with
  | O => ""
  | _ => "." +:+ pad_left p (Libc.fmt_d (q' mod 10 ^ Z.of_nat p))
  end.

(** [%.<p>f] as glibc prints it in the default rounding mode. *)
Definition glibc_printf_f (p : nat) (x : float) : string :=
  match Prim2SF x with
  | S754_nan => "nan"
  | S754_infinity s => if s then "-inf" else "inf"
  | S754_zero s => fixed_of p s 0 1
  | S754_finite s m e =>
      if (0 <=? e)%Z then fixed_of p s (Z.pos m * 2 ^ e) 1
      else fixed_of p s (Z.pos m) (2 ^ (- e))
  end.

(** Two digits. *)
Definition two_digits (n : Z) : string := pad_left 2 (Libc.fmt_d n).

(** The civil date of a day count from 1970-01-01. *)
Definition utc_date (days : Z) : string :=
  let z := (days + 719468)%Z in
  let era := (z / 146097)%Z in
  let doe := (z - era * 146097)%Z in
  let yoe := ((doe - doe / 1460 + doe / 36524 - doe / 146096) / 365)%Z in
  let doy := (doe - (365 * yoe + yoe / 4 - yoe / 100))%Z in
  let mp := ((5 * doy + 2) / 153)%Z in
  let d := (doy - (153 * mp + 2) / 5 + 1)%Z in
  let m := (if (mp <? 10)%Z then mp + 3 else mp - 9)%Z in
  let y := (yoe + era * 400 + (if (m <=? 2)%Z then 1 else 0))%Z in
  pad_left 4 (Libc.fmt_d y) +:+ "-" +:+ two_digits m +:+ "-" +:+ two_digits d.

(** [strftime] for the two formats of the plugin, in the UTC time zone. *)
Definition utc_strftime (fmt : string) (t : Z) : string :=
  let hms := two_digits (t / 3600 mod 24) +:+ ":" +:+ two_digits (t / 60 mod 60)
             +:+ ":" +:+ two_digits (t mod 60) in
  if String.eqb fmt "%H:%M:%S" then hms
  else if String.eqb fmt "%Y-%m-%d %H:%M:%S" then utc_date (t / 86400) +:+ " " +:+ hms
  else fmt.

(** The process before [XPluginStart]: every global is zero. *)
Definition globals_init : globals :=
  mkGlobals "" "" "" "" (fun _ => None) None false.

(** The path of the side file of [WriteTelemetryJSON]. *)
Definition tmp_file_of (w : world) : string :=
  Libc.snprintf 1024 (g_input_file (w_g w) +:+ ".tmp").

(** A machine with room on its disk and a simulator that knows every
    dataref but the two transponder ones. *)
Definition os_demo : os :=
  mkOs ∅ (fun _ => true) None 1000 utc_strftime (Some "/home/pilot") [].

Definition sim_demo : simulator :=
  mkSim (fun p => negb (String.prefix "sim/cockpit/radios/" p))
        (fun p => if String.eqb p "sim/flightmodel/position/latitude"
                  then 47.5%float else 8.5625%float)
        (fun _ => 90%float)
        (fun p => if String.eqb p "sim/time/paused" then 0%Z else 118325%Z)
        "B738.acf" ∅ 1.

Definition w_init : world := mkWorld os_demo sim_demo globals_init.

(** After [XPluginStart]. *)
Definition w_started : world := final (XPluginStart w_init).

(** The same, with an earlier snapshot published and a disk that takes 40
    more bytes. *)
Definition w_disk_full : world :=
  with_os (fun o => set_quota (Some 40)
     (set_files (<[g_input_file (w_g w_started) := "{}" +:+ nl]> (files o)) o))
    w_started.

(** The same as [w_started], on a data directory that cannot be written
    (the log could not be opened either). *)
Definition w_denied : world :=
  final (XPluginStart
           (mkWorld (mkOs ∅ (fun _ => false) None 1000 utc_strftime (Some "/home/pilot") [])
                    sim_demo globals_init)).

(** The started plugin with an earlier snapshot published, the log open,
    and a side file that cannot be opened. *)
Definition w_unwritable : world :=
  with_os (fun o =>
     mkOs (<[g_input_file (w_g w_started) := "{}" +:+ nl]> (files o))
          (fun p => negb (String.eqb p (tmp_file_of w_started)))
          (quota o) (clock o) (strftime o) (home o) (log_out o))
    w_started.

(** The started plugin flying an aircraft whose file name holds double
    quotes. *)
Definition quoted_name : string :=
  "B738" +:+ dq +:+ ", " +:+ dq +:+ "hacked" +:+ dq +:+ ": " +:+ dq +:+ "1".
Definition w_quoted : world :=
  with_sim (fun s => mkSim (sim_has s) (sim_d s) (sim_f s) (sim_i s) quoted_name
                           (loops s) (next_loop s)) w_started.

(** A world started twice without a stop, and the same after a stop. *)
Definition w_restarted : world := final (XPluginStart w_started).
Definition w_restarted_stopped : world := final (XPluginStop w_restarted).

(** The record of the scenario, and the beginning of another one. *)
Definition set_com1_record : string :=
  "{" +:+ dq +:+ "kind" +:+ dq +:+ ":" +:+ dq +:+ "set_com1_frequency" +:+ dq +:+ ","
  +:+ dq +:+ "params" +:+ dq +:+ ":{" +:+ dq +:+ "hz" +:+ dq +:+ ":118325000}}".
Definition half_record : string :=
  "{" +:+ dq +:+ "kind" +:+ dq +:+ ":" +:+ dq +:+ "set_tra".

(** The client has appended the record; then it is half way through the
    next one. *)
Definition w_one_command : world := client_append set_com1_record w_started.
Definition w_fragment : world := client_write half_record w_one_command.

(** The first 40 bytes of the snapshot of [w_disk_full]. *)
Definition truncated_snapshot : string :=
  "{" +:+ nl +:+ "  " +:+ dq +:+ "timestamp" +:+ dq +:+ ": 1000," +:+ nl
  +:+ "  " +:+ dq +:+ "simulator" +:+ dq +:+ ": " +:+ dq +:+ "X".

(** Enough room on the disk for [n] more bytes. *)
Definition room (q : option nat) (n : nat) : Prop :=
  match q with None => True | Some k => n <= k end.

(** The host's flight-loop table hands out fresh identifiers. *)
Definition host_fresh (s : simulator) : Prop :=
  forall id, next_loop s <= id -> loops s !! id = None.

(** The bridge's state is valid when its handle names a live registration. *)
Definition bridge_valid (w : world) : Prop :=
  forall id, g_flight_loop_id (w_g w) = Some id -> is_Some (loops (w_sim w) !! id).

(** ** Notions the statements are written in *)

(** What the disk keeps of [s] when [q] bytes still fit. *)
Definition stored_of (q : option nat) (s : string) : string :=
  match q with None => s | Some k => Libc.take k s end.

(** [w'] differs from [w] in the file at [path] and the quota at most. *)
Definition touches_only (path : string) (w w' : world) : Prop :=
  w_sim w' = w_sim w /\ w_g w' = w_g w /\
  can_open (w_os w') = can_open (w_os w) /\ clock (w_os w') = clock (w_os w) /\
  home (w_os w') = home (w_os w) /\ log_out (w_os w') = log_out (w_os w) /\
  forall p, p <> path -> files (w_os w') !! p = files (w_os w) !! p.

(** The group and key under which the value read through a dataref global
    is printed. *)
Definition snapshot_field (v : dataref_var) : string * string :=
  match v with
  | dr_lat => ("position", "latitude")
  | dr_lon => ("position", "longitude")
  | dr_alt_msl => ("position", "altitude_msl_m")
  | dr_alt_agl => ("position", "altitude_agl_m")
  | dr_hdg_mag => ("orientation", "heading_mag")
  | dr_hdg_true => ("orientation", "heading_true")
  | dr_pitch => ("orientation", "pitch")
  | dr_roll => ("orientation", "roll")
  | dr_gnd_speed => ("speed", "ground_speed_mps")
  | dr_ias => ("speed", "ias_kts")
  | dr_tas => ("speed", "tas_mps")
  | dr_vs => ("speed", "vertical_speed_fpm")
  | dr_on_ground => ("state", "on_ground")
  | dr_paused => ("state", "paused")
  | dr_com1_freq => ("radios", "com1_hz")
  | dr_com1_stdby => ("radios", "com1_standby_hz")
  | dr_com2_freq => ("radios", "com2_hz")
  | dr_com2_stdby => ("radios", "com2_standby_hz")
  | dr_nav1_freq => ("radios", "nav1_hz")
  | dr_nav2_freq => ("radios", "nav2_hz")
  | dr_xpdr_code => ("transponder", "code")
  | dr_xpdr_mode => ("transponder", "mode")
  | dr_ap_alt => ("autopilot", "altitude_ft")
  | dr_ap_hdg => ("autopilot", "heading")
  | dr_ap_vs => ("autopilot", "vs_fpm")
  end.

(** The default of a field: zero, or false for the two flags. *)
Definition sentinel (v : dataref_var) : leaf :=
  match v with
  | dr_lat | dr_lon => LNum 8 0%float
  | dr_alt_msl | dr_alt_agl
  | dr_hdg_mag | dr_hdg_true | dr_pitch | dr_roll
  | dr_gnd_speed | dr_ias | dr_tas | dr_vs => LNum 2 0%float
  | dr_ap_alt | dr_ap_hdg | dr_ap_vs => LNum 0 0%float
  | dr_on_ground | dr_paused => LBool false
  | dr_com1_freq | dr_com1_stdby | dr_com2_freq | dr_com2_stdby
  | dr_nav1_freq | dr_nav2_freq | dr_xpdr_code | dr_xpdr_mode => LInt 0
  end.

Section SideFile.

Variable printf_f : nat -> float -> string.

(** The document a publish from [w] sets out to write. *)
Definition document_of (w : world) : string :=
  Libc.cat (telemetry_lines printf_f (read_telemetry w)).

(** The world once the side file is open. *)
Definition opened (w : world) : world :=
  with_os (fun o => set_files (<[tmp_file_of w := ""]> (files o)) o) w.

(** The world once the lines are written. *)
Definition written (w : world) : M unit :=
  fprintf_all (tmp_file_of w) (telemetry_lines printf_f (read_telemetry (opened w))).

End SideFile.

(** What the host and the lifecycle callbacks share: the simulator with its
    table of flight loops, and the plugin's handle. *)
Definition host_view (w : world) : simulator * option nat :=
  (w_sim w, g_flight_loop_id (w_g w)).

(** [m] changes the host's view by [E], whatever else it does. *)
Definition acts_as {A} (m : M A)
    (E : simulator * option nat -> simulator * option nat) : Prop :=
  forall w, host_view (final (m w)) = E (host_view w).

(** What [XPluginStart] does to the host's view: one more registration,
    not yet scheduled, and the handle set to it. *)
Definition started_view (v : simulator * option nat) : simulator * option nat :=
  (set_loops (<[next_loop v.1 := 0%float]> (loops v.1)) (S (next_loop v.1)) v.1,
   Some (next_loop v.1)).

(** What [XPluginStop] does: the registration behind the handle, if any,
    is destroyed and the handle cleared. *)
Definition stopped_view (v : simulator * option nat) : simulator * option nat :=
  (match v.2 with
   | Some id => set_loops (delete id (loops v.1)) (next_loop v.1) v.1
   | None => v.1
   end, None).

(** What [XPluginEnable] (at 1) and [XPluginDisable] (at 0) do: the
    registration behind the handle, if there is one, is scheduled at [t]. *)
Definition scheduled_view (t : float) (v : simulator * option nat)
    : simulator * option nat :=
  (match v.2 with
   | Some id =>
       match loops v.1 !! id with
       | Some _ => set_loops (<[id := t]> (loops v.1)) (next_loop v.1) v.1
       | None => v.1
       end
   | None => v.1
   end, v.2).

(** The leaf a bound field shows: which accessor reads it and how it is
    printed. *)
Definition field_value (s : simulator) (v : dataref_var) : leaf :=
  let p := dataref_path v in
  match v with
  | dr_lat | dr_lon => LNum 8 (sim_d s p)
  | dr_alt_msl => LNum 2 (sim_d s p)
  | dr_alt_agl
  | dr_hdg_mag | dr_hdg_true | dr_pitch | dr_roll
  | dr_gnd_speed | dr_ias | dr_tas | dr_vs => LNum 2 (sim_f s p)
  | dr_ap_alt | dr_ap_hdg | dr_ap_vs => LNum 0 (sim_f s p)
  | dr_on_ground | dr_paused => LBool (negb (sim_i s p =? 0)%Z)
  | dr_com1_freq | dr_com1_stdby | dr_com2_freq | dr_com2_stdby
  | dr_nav1_freq | dr_nav2_freq | dr_xpdr_code | dr_xpdr_mode => LInt (sim_i s p)
  end.

(** Nothing but the file system, the quota and the log stream differs. *)
Definition reads_only (w w' : world) : Prop :=
  w_sim w' = w_sim w /\ w_g w' = w_g w /\
  can_open (w_os w') = can_open (w_os w) /\ clock (w_os w') = clock (w_os w) /\
  home (w_os w') = home (w_os w).

(** The lines [XPluginStart] sends to the log: a header when this start
    opens the stream, then four lines when the stream is open. *)
Definition start_lines (was_open can : bool) (dir : string) : list log_entry :=
  (if negb was_open && can then [LogHeader] else []) ++
  (if was_open || can
   then [LogLine "INFO" ("Plugin starting (version " +:+ PLUGIN_VERSION +:+ ")");
         LogLine "INFO" ("Data directory: " +:+ dir);
         LogLine "INFO" "DataRefs initialized";
         LogLine "INFO" "Plugin started successfully"]
   else []).

(** ** Strings *)

Lemma app_cons_s (x : ascii) (a b : string) : String x a +:+ b = String x (a +:+ b).
Proof. reflexivity. Qed.

Lemma app_assoc_s (a b c : string) : (a +:+ b) +:+ c = a +:+ (b +:+ c).
Proof.
  induction a as [|x a IH]; [reflexivity |].
  rewrite !app_cons_s. now rewrite IH.
Qed.

Lemma app_nil_r_s (a : string) : a +:+ "" = a.
Proof.
  induction a as [|x a IH]; [reflexivity |].
  rewrite app_cons_s. now rewrite IH.
Qed.

Lemma length_app_s (a b : string) :
  String.length (a +:+ b) = String.length a + String.length b.
Proof.
  induction a as [|x a IH]; [reflexivity |].
  rewrite app_cons_s. simpl. now rewrite IH.
Qed.

Lemma take_all (n : nat) (s : string) : String.length s <= n -> Libc.take n s = s.
Proof.
  revert n; induction s as [|x s IH]; intros [|n] H; simpl in *; try reflexivity; try lia.
  rewrite IH; [reflexivity | lia].
Qed.

Lemma length_take (n : nat) (s : string) : String.length (Libc.take n s) <= n.
Proof.
  revert n; induction s as [|x s IH]; intros [|n]; simpl; try lia.
  specialize (IH n); lia.
Qed.

Lemma length_take_le (n : nat) (s : string) :
  String.length (Libc.take n s) <= String.length s.
Proof.
  revert n; induction s as [|x s IH]; intros [|n]; simpl; try lia.
  specialize (IH n); lia.
Qed.

Lemma app_length_neq (a b : string) : b <> "" -> a +:+ b <> a.
Proof.
  intros Hb E. apply (f_equal String.length) in E. rewrite length_app_s in E.
  destruct b; [congruence | simpl in E; lia].
Qed.

(** The side file is never the publication path, as long as the path
    leaves room in the buffer for the suffix. *)
Lemma tmp_file_distinct (w : world) :
  String.length (g_input_file (w_g w)) <= 1019 ->
  tmp_file_of w = g_input_file (w_g w) +:+ ".tmp" /\
  tmp_file_of w <> g_input_file (w_g w).
Proof.
  intros H. unfold tmp_file_of, Libc.snprintf.
  rewrite take_all.
  - split; [reflexivity | apply app_length_neq; discriminate].
  - rewrite length_app_s. simpl. lia.
Qed.

(** [InitFilePaths] always leaves such a path. *)
Lemma InitFilePaths_length (w : world) :
  String.length (g_input_file (w_g (final (InitFilePaths w)))) <= 1019.
Proof.
  set (d := match home (w_os w) with
            | Some h => Libc.snprintf 512 (h +:+ "/.local/share/StratusATC")
            | None => Libc.snprintf 512 "/tmp/StratusATC"
            end).
  change (g_input_file (w_g (final (InitFilePaths w))))
    with (Libc.snprintf 1024 (d +:+ "/" +:+ "simAPI_input.json")).
  assert (String.length d <= 511) as Hd
    by (unfold d, Libc.snprintf; destruct (home (w_os w)); apply length_take).
  unfold Libc.snprintf.
  etransitivity; [apply length_take_le |].
  rewrite !length_app_s.
  change (String.length "/") with 1.
  change (String.length "simAPI_input.json") with 17.
  lia.
Qed.

Lemma take_nil (n : nat) : Libc.take n "" = "".
Proof. destruct n; reflexivity. Qed.

Lemma take_app (n : nat) (a b : string) :
  Libc.take n (a +:+ b) = Libc.take n a +:+ Libc.take (n - String.length a) b.
Proof.
  revert n; induction a as [|x a IH]; intros n.
  - change ("" +:+ b) with b. rewrite take_nil, Nat.sub_0_r. reflexivity.
  - rewrite app_cons_s. destruct n as [|n]; [reflexivity |].
    simpl. rewrite app_cons_s, IH. reflexivity.
Qed.

Lemma take_take_sub (n : nat) (a b : string) :
  Libc.take (n - String.length (Libc.take n a)) b = Libc.take (n - String.length a) b.
Proof.
  destruct (le_lt_dec (String.length a) n) as [H|H].
  - rewrite (take_all n a) by exact H. reflexivity.
  - assert (String.length (Libc.take n a) = n) as ->.
    { clear b. revert n H; induction a as [|x a IH]; intros [|n] H; simpl in *; try lia.
      rewrite IH; lia. }
    replace (n - String.length a) with 0 by lia. now rewrite Nat.sub_diag.
Qed.

(** ** The monad's projections *)

Lemma final_bind {A B} (m : M A) (f : A -> M B) (w : world) :
  final ((m ≫= f) w) = final (f (result (m w)) (final (m w))).
Proof. reflexivity. Qed.

Lemma final_ret {A} (a : A) (w : world) : final ((mret a : M A) w) = w.
Proof. reflexivity. Qed.

Lemma trace_ret {A} (a : A) (w : world) : trace ((mret a : M A) w) = [].
Proof. reflexivity. Qed.

Lemma trace_bind {A B} (m : M A) (f : A -> M B) (w : world) :
  trace ((m ≫= f) w) = trace (m w) ++ trace (f (result (m w)) (final (m w))).
Proof. reflexivity. Qed.

Lemma result_bind {A B} (m : M A) (f : A -> M B) (w : world) :
  result ((m ≫= f) w) = result (f (result (m w)) (final (m w))).
Proof. reflexivity. Qed.

(** ** Writing a file *)

Lemma touches_only_refl (path : string) (w : world) : touches_only path w w.
Proof. unfold touches_only; tauto. Qed.

Lemma touches_only_trans (path : string) (w1 w2 w3 : world) :
  touches_only path w1 w2 -> touches_only path w2 w3 -> touches_only path w1 w3.
Proof.
  unfold touches_only.
  intros (?&?&?&?&?&?&Hf) (?&?&?&?&?&?&Hf').
  repeat split; try congruence.
  intros p Hp. rewrite Hf', Hf; auto.
Qed.

Lemma fprintf_final (path text : string) (w : world) :
  final (fprintf path text w) =
  with_os (fun o =>
     set_quota (match quota o with
                | None => None
                | Some n => Some (n - String.length (stored_of (quota o) text))
                end)
       (set_files (<[path := default "" (files o !! path) +:+ stored_of (quota o) text]>
                    (files o)) o)) w.
Proof. unfold fprintf, final, stored_of, with_os. reflexivity. Qed.

Lemma fprintf_trace (path text : string) (w : world) :
  trace (fprintf path text w) =
  [(Fprintf path text (stored_of (quota (w_os w)) text), final (fprintf path text w))].
Proof. reflexivity. Qed.

Lemma fprintf_touches (path text : string) (w : world) :
  touches_only path w (final (fprintf path text w)).
Proof.
  rewrite fprintf_final. unfold touches_only; simpl.
  repeat split; try reflexivity.
  intros p Hp. now rewrite lookup_insert_ne.
Qed.

Lemma fprintf_all_touches (path : string) (lines : list string) (w : world) :
  touches_only path w (final (fprintf_all path lines w)) /\
  Forall (fun ew => touches_only path w ew.2) (trace (fprintf_all path lines w)).
Proof.
  revert w; induction lines as [|l ls IH]; intros w.
  - split; [apply touches_only_refl | constructor].
  - change (fprintf_all path (l :: ls)) with (fprintf path l ≫= fun _ => fprintf_all path ls).
    rewrite final_bind, trace_bind.
    pose proof (fprintf_touches path l w) as H1.
    destruct (IH (final (fprintf path l w))) as [H2 H3].
    split; [eapply touches_only_trans; eauto |].
    apply Forall_app; split.
    + rewrite fprintf_trace. constructor; [exact H1 | constructor].
    + eapply Forall_impl; [exact H3 |].
      intros ew H; eapply touches_only_trans; eauto.
Qed.

(** The side file after the [fprintf] calls: what was there, then as much
    of the lines as the disk took. *)
Lemma fprintf_all_content (path : string) (lines : list string) (w : world) (c : string) :
  files (w_os w) !! path = Some c ->
  files (w_os (final (fprintf_all path lines w))) !! path =
    Some (c +:+ stored_of (quota (w_os w)) (Libc.cat lines)).
Proof.
  revert w c; induction lines as [|l ls IH]; intros w c Hc.
  - change (final (fprintf_all path [] w)) with w. rewrite Hc.
    unfold stored_of. simpl. destruct (quota (w_os w)); rewrite ?take_nil, app_nil_r_s; reflexivity.
  - change (fprintf_all path (l :: ls)) with (fprintf path l ≫= fun _ => fprintf_all path ls).
    rewrite final_bind.
    erewrite IH.
    2:{ rewrite fprintf_final. simpl. rewrite lookup_insert_eq, Hc. reflexivity. }
    rewrite fprintf_final. simpl.
    change (Libc.cat (l :: ls)) with (l +:+ Libc.cat ls).
    f_equal. rewrite app_assoc_s. f_equal.
    destruct (quota (w_os w)) as [k|]; simpl; [| reflexivity].
    rewrite take_app, take_take_sub. reflexivity.
Qed.

(** ** Publishing a snapshot *)

Section Publication.

Variable printf_f : nat -> float -> string.

(** Opening the side file changes nothing that is sampled. *)
Lemma read_telemetry_opened (w : world) : read_telemetry (opened w) = read_telemetry w.
Proof. reflexivity. Qed.

Lemma rename_present (src dst c : string) (w : world) :
  files (w_os w) !! src = Some c ->
  rename src dst w =
    (tt, with_os (fun o => set_files (<[dst := c]> (delete src (files o))) o) w,
     [(Rename src dst true,
       with_os (fun o => set_files (<[dst := c]> (delete src (files o))) o) w)]).
Proof. intros H. unfold rename. rewrite H. reflexivity. Qed.

Lemma fopen_w_true (path : string) (w : world) :
  can_open (w_os w) path = true ->
  fopen_w path w =
    (true, with_os (fun o => set_files (<[path := ""]> (files o)) o) w,
     [(Fopen path true, with_os (fun o => set_files (<[path := ""]> (files o)) o) w)]).
Proof. intros H. unfold fopen_w. rewrite H. reflexivity. Qed.

Lemma fopen_w_false (path : string) (w : world) :
  can_open (w_os w) path = false ->
  fopen_w path w = (false, w, [(Fopen path false, w)]).
Proof. intros H. unfold fopen_w. rewrite H. reflexivity. Qed.

Lemma publish_denied (w : world) :
  can_open (w_os w) (tmp_file_of w) = false ->
  let msg := "Failed to open temp file for writing: " +:+ tmp_file_of w in
  final (WriteTelemetryJSON printf_f w) = final (LOG_ERROR msg w) /\
  trace (WriteTelemetryJSON printf_f w) =
    (Call RWriteTelemetryJSON, w) :: (Fopen (tmp_file_of w) false, w)
      :: trace (LOG_ERROR msg w).
Proof.
  intros H msg. subst msg. unfold WriteTelemetryJSON.
  generalize (telemetry_lines printf_f). intros lines.
  rewrite final_bind, trace_bind. cbv beta.
  change (final (enter RWriteTelemetryJSON w)) with w.
  change (trace (enter RWriteTelemetryJSON w)) with [(Call RWriteTelemetryJSON, w)].
  rewrite final_bind, trace_bind. cbv beta.
  change (final (get w)) with w. change (result (get w)) with w.
  change (trace (get w)) with (@nil (event * world)).
  fold (tmp_file_of w).
  rewrite final_bind, trace_bind. cbv beta.
  rewrite (fopen_w_false _ _ H).
  cbn [result final trace fst snd negb].
  split; reflexivity.
Qed.

Lemma publish_opened (w : world) :
  can_open (w_os w) (tmp_file_of w) = true ->
  let r := written printf_f w (opened w) in
  let r' := rename (tmp_file_of w) (g_input_file (w_g w)) (final r) in
  final (WriteTelemetryJSON printf_f w) = final r' /\
  trace (WriteTelemetryJSON printf_f w) =
    (Call RWriteTelemetryJSON, w) :: (Fopen (tmp_file_of w) true, opened w)
      :: trace r ++ (Fclose (tmp_file_of w), final r) :: trace r'.
Proof.
  intros H r r'. subst r r'. unfold written, opened, WriteTelemetryJSON.
  generalize (telemetry_lines printf_f). intros lines.
  rewrite final_bind, trace_bind. cbv beta.
  change (final (enter RWriteTelemetryJSON w)) with w.
  change (trace (enter RWriteTelemetryJSON w)) with [(Call RWriteTelemetryJSON, w)].
  rewrite final_bind, trace_bind. cbv beta.
  change (final (get w)) with w. change (result (get w)) with w.
  change (trace (get w)) with (@nil (event * world)).
  fold (tmp_file_of w).
  rewrite final_bind, trace_bind. cbv beta.
  rewrite (fopen_w_true _ _ H).
  cbn [result final trace fst snd negb].
  rewrite final_bind, trace_bind. cbv beta.
  set (w1 := with_os _ w).
  change (final (get w1)) with w1. change (result (get w1)) with w1.
  change (trace (get w1)) with (@nil (event * world)).
  rewrite final_bind, trace_bind. cbv beta.
  set (r := fprintf_all _ _ w1).
  rewrite final_bind, trace_bind. cbv beta.
  change (final (fclose (tmp_file_of w) (final r))) with (final r).
  change (trace (fclose (tmp_file_of w) (final r)))
    with [(Fclose (tmp_file_of w), final r)].
  clearbody r w1.
  split; reflexivity.
Qed.

(** The side file once the lines are written: as much of the document as
    the disk took. *)
Lemma written_side_file (w : world) :
  files (w_os (final (written printf_f w (opened w)))) !! tmp_file_of w =
    Some (stored_of (quota (w_os w)) (document_of printf_f w)).
Proof.
  unfold written. erewrite fprintf_all_content.
  2:{ unfold opened. simpl. apply lookup_insert_eq. }
  rewrite read_telemetry_opened. reflexivity.
Qed.

Lemma written_touches (w : world) :
  touches_only (tmp_file_of w) w (final (written printf_f w (opened w))) /\
  Forall (fun ew => touches_only (tmp_file_of w) w ew.2) (trace (written printf_f w (opened w))).
Proof.
  assert (touches_only (tmp_file_of w) w (opened w)) as Ho.
  { unfold touches_only, opened; simpl. repeat split; try reflexivity.
    intros p Hp. now rewrite lookup_insert_ne. }
  destruct (fprintf_all_touches (tmp_file_of w)
              (telemetry_lines printf_f (read_telemetry (opened w))) (opened w)) as [H1 H2].
  split; [eapply touches_only_trans; eauto |].
  eapply Forall_impl; [exact H2 |].
  intros ew H; eapply touches_only_trans; eauto.
Qed.

(** A publish whose side file could be opened ends with the publication
    path holding what the side file held, the side file gone, and every
    other file as it was. *)
Lemma publish_final (w : world) :
  can_open (w_os w) (tmp_file_of w) = true ->
  String.length (g_input_file (w_g w)) <= 1019 ->
  let w' := final (WriteTelemetryJSON printf_f w) in
  files (w_os w') !! g_input_file (w_g w) =
    Some (stored_of (quota (w_os w)) (document_of printf_f w)) /\
  files (w_os w') !! tmp_file_of w = None /\
  (forall p, p <> tmp_file_of w -> p <> g_input_file (w_g w) ->
             files (w_os w') !! p = files (w_os w) !! p) /\
  w_sim w' = w_sim w /\ w_g w' = w_g w /\ log_out (w_os w') = log_out (w_os w).
Proof.
  intros Hopen Hlen w'.
  destruct (tmp_file_distinct w Hlen) as [_ Hne].
  destruct (publish_opened w Hopen) as [Hf _].
  destruct (written_touches w) as [(Hs & Hg & _ & _ & _ & Hl & Hfs) _].
  pose proof (written_side_file w) as Hside.
  subst w'. rewrite Hf. clear Hf.
  revert Hs Hg Hl Hfs Hside.
  generalize (stored_of (quota (w_os w)) (document_of printf_f w)).
  generalize (final (written printf_f w (opened w))).
  intros wf doc Hs Hg Hl Hfs Hside.
  rewrite (rename_present _ _ _ _ Hside).
  cbn [final fst snd with_os w_os w_sim w_g set_files files log_out].
  repeat split; auto.
  - apply lookup_insert_eq.
  - rewrite lookup_insert_ne by congruence. apply lookup_delete_eq.
  - intros p Hp1 Hp2. rewrite lookup_insert_ne by congruence.
    rewrite lookup_delete_ne by congruence. auto.
Qed.

(** At every instant of such a publish the publication path holds what it
    held before or what the side file got in the end. *)
Lemma publish_instants (w : world) :
  can_open (w_os w) (tmp_file_of w) = true ->
  String.length (g_input_file (w_g w)) <= 1019 ->
  Forall (fun ew =>
            files (w_os ew.2) !! g_input_file (w_g w) =
              files (w_os w) !! g_input_file (w_g w) \/
            files (w_os ew.2) !! g_input_file (w_g w) =
              Some (stored_of (quota (w_os w)) (document_of printf_f w)))
         (trace (WriteTelemetryJSON printf_f w)).
Proof.
  intros Hopen Hlen.
  destruct (tmp_file_distinct w Hlen) as [_ Hne].
  destruct (publish_opened w Hopen) as [_ Ht]. rewrite Ht. clear Ht.
  destruct (written_touches w) as [(_ & _ & _ & _ & _ & _ & Hfs) Hall].
  pose proof (written_side_file w) as Hside.
  revert Hfs Hall Hside.
  generalize (stored_of (quota (w_os w)) (document_of printf_f w)).
  generalize (written printf_f w (opened w)).
  intros r doc Hfs Hall Hside.
  constructor; [left; reflexivity |].
  constructor.
  { left. unfold opened; simpl. rewrite lookup_insert_ne by congruence. reflexivity. }
  apply Forall_app; split.
  - eapply Forall_impl; [exact Hall |].
    intros ew (_ & _ & _ & _ & _ & _ & H). left. apply H. congruence.
  - constructor; [left; apply Hfs; congruence |].
    rewrite (rename_present _ _ _ _ Hside).
    cbn [trace fst snd].
    constructor; [| constructor]. right.
    cbn [fst snd with_os w_os set_files files]. apply lookup_insert_eq.
Qed.

Lemma stored_of_room (q : option nat) (s : string) :
  room q (String.length s) -> stored_of q s = s.
Proof. destruct q as [k|]; simpl; [apply take_all | reflexivity]. Qed.

(** The lines the code prints are the layout of the snapshot document. *)
Lemma print_snapshot_document (t : telemetry) :
  print_document printf_f (snapshot_document t) = telemetry_lines printf_f t.
Proof.
  unfold print_document, snapshot_document, telemetry_lines, c_bool.
  cbn [print_members print_leaves print_leaf app fst snd].
  destruct (on_gnd t =? 0)%Z, (paused t =? 0)%Z; reflexivity.
Qed.

(** A publish that could open its side file and store every byte leaves
    the laid-out snapshot document at the publication path. *)
Lemma publish_document (w : world) :
  can_open (w_os w) (tmp_file_of w) = true ->
  String.length (g_input_file (w_g w)) <= 1019 ->
  room (quota (w_os w)) (String.length (document_of printf_f w)) ->
  files (w_os (final (WriteTelemetryJSON printf_f w))) !! g_input_file (w_g w) =
    Some (Libc.cat (print_document printf_f (snapshot_document (read_telemetry w)))).
Proof.
  intros Hopen Hlen Hroom.
  destruct (publish_final w Hopen Hlen) as [Hpub _].
  rewrite Hpub, (stored_of_room _ _ Hroom), print_snapshot_document. reflexivity.
Qed.

Lemma sentinel_lookup (w : world) (v : dataref_var) :
  dr (w_g w) v = None ->
  doc_lookup (snapshot_document (read_telemetry w))
             (snapshot_field v).1 (snapshot_field v).2 = Some (sentinel v).
Proof.
  intros H.
  destruct v; unfold doc_lookup, snapshot_document, read_telemetry;
    cbn; unfold read_d, read_f, read_i; rewrite H; reflexivity.
Qed.

(** C7: a field whose dataref binding is missing at sampling time is still
    in the published snapshot, with its default: zero for a numeric field,
    false for a boolean one. *)
Theorem unavailable_field_published_as_sentinel (w : world) (v : dataref_var) :
  dr (w_g w) v = None ->
  can_open (w_os w) (tmp_file_of w) = true ->
  String.length (g_input_file (w_g w)) <= 1019 ->
  room (quota (w_os w)) (String.length (document_of printf_f w)) ->
  let d := snapshot_document (read_telemetry w) in
  files (w_os (final (WriteTelemetryJSON printf_f w))) !! g_input_file (w_g w) =
    Some (Libc.cat (print_document printf_f d)) /\
  doc_lookup d (snapshot_field v).1 (snapshot_field v).2 = Some (sentinel v).
Proof.
  intros Hdr Hopen Hlen Hroom d. split.
  - apply publish_document; assumption.
  - apply sentinel_lookup; assumption.
Qed.

(** *** When the side file cannot be created *)

Lemma Log_closed (level msg : string) (w : world) :
  g_log_fp (w_g w) = false -> Log level msg w = (tt, w, []).
Proof.
  intros H. unfold Log.
  cbv beta iota zeta delta [mbind M_bind get fst snd].
  rewrite H. reflexivity.
Qed.

Lemma Log_open (level msg : string) (w : world) :
  g_log_fp (w_g w) = true ->
  Log level msg w =
    (tt, logged (LogLine level msg) w,
     [(LogWrite (LogLine level msg), logged (LogLine level msg) w)]).
Proof.
  intros H. unfold Log.
  cbv beta iota zeta delta [mbind M_bind get fst snd].
  rewrite H. reflexivity.
Qed.

(** An entry sent down the stream lengthens [log_out] and the log file,
    and nothing else. *)
Lemma logged_frame (e : log_entry) (w : world) :
  w_sim (logged e w) = w_sim w /\
  w_g (logged e w) = w_g w /\
  can_open (w_os (logged e w)) = can_open (w_os w) /\
  clock (w_os (logged e w)) = clock (w_os w) /\
  home (w_os (logged e w)) = home (w_os w) /\
  log_out (w_os (logged e w)) = log_out (w_os w) ++ [e] /\
  (forall p, p <> g_log_file (w_g w) ->
             files (w_os (logged e w)) !! p = files (w_os w) !! p) /\
  files (w_os (logged e w)) !! g_log_file (w_g w) =
    Some (default "" (files (w_os w) !! g_log_file (w_g w))
          +:+ stored_of (quota (w_os w)) (log_text (w_os w) e)).
Proof.
  unfold logged, with_os, append_file, stored_of.
  cbn [w_os w_sim w_g set_log_out set_quota set_files files can_open clock home log_out].
  repeat split; try reflexivity.
  - intros p Hp. rewrite lookup_insert_ne by congruence. reflexivity.
  - apply lookup_insert_eq.
Qed.

(** Logging touches the log stream and the log file only. *)
Lemma Log_frame (level msg : string) (w : world) :
  w_sim (final (Log level msg w)) = w_sim w /\
  w_g (final (Log level msg w)) = w_g w /\
  (forall p, p <> g_log_file (w_g w) ->
             files (w_os (final (Log level msg w))) !! p = files (w_os w) !! p) /\
  Forall (fun ew => (forall p, p <> g_log_file (w_g w) ->
                               files (w_os ew.2) !! p = files (w_os w) !! p) /\
                    w_sim ew.2 = w_sim w /\ w_g ew.2 = w_g w)
         (trace (Log level msg w)) /\
  calls (trace (Log level msg w)) = [] /\
  delivered (trace (Log level msg w)) = [].
Proof.
  destruct (g_log_fp (w_g w)) eqn:H.
  - rewrite (Log_open _ _ _ H).
    destruct (logged_frame (LogLine level msg) w) as (Hs & Hg & _ & _ & _ & _ & Hf & _).
    cbn [final trace fst snd].
    split; [exact Hs | split; [exact Hg | split; [exact Hf |]]].
    split; [| split; reflexivity].
    constructor; [| constructor]. cbn [snd]. auto.
  - rewrite (Log_closed _ _ _ H). cbn [final trace fst snd].
    repeat split; auto.
Qed.

(** C2, amended: when the side file cannot be created, the publish is
    abandoned before anything is written to it or renamed: at every instant
    and at the end every file but the plugin's own log file is what it was,
    so the publication path, a path other than the log file's, keeps its
    previous content; the failure is not handed back to the caller but is
    appended as an ERROR line to the log file when the log is open; and
    nothing else of the world changes. *)
Theorem failed_open_abandons_publish (w : world) :
  can_open (w_os w) (tmp_file_of w) = false ->
  g_input_file (w_g w) <> g_log_file (w_g w) ->
  let r := WriteTelemetryJSON printf_f w in
  let report :=
    LogLine "ERROR" ("Failed to open temp file for writing: " +:+ tmp_file_of w) in
  events r = Call RWriteTelemetryJSON :: Fopen (tmp_file_of w) false
               :: (if g_log_fp (w_g w) then [LogWrite report] else []) /\
  Forall (fun ew => forall p, p <> g_log_file (w_g w) ->
                              files (w_os ew.2) !! p = files (w_os w) !! p) (trace r) /\
  Forall (fun ew => files (w_os ew.2) !! g_input_file (w_g w)
                    = files (w_os w) !! g_input_file (w_g w)) (trace r) /\
  files (w_os (final r)) !! g_input_file (w_g w)
    = files (w_os w) !! g_input_file (w_g w) /\
  (forall p, p <> g_log_file (w_g w) ->
             files (w_os (final r)) !! p = files (w_os w) !! p) /\
  files (w_os (final r)) !! g_log_file (w_g w) =
    (if g_log_fp (w_g w)
     then Some (default "" (files (w_os w) !! g_log_file (w_g w))
                +:+ stored_of (quota (w_os w)) (log_text (w_os w) report))
     else files (w_os w) !! g_log_file (w_g w)) /\
  log_out (w_os (final r)) =
    log_out (w_os w) ++ (if g_log_fp (w_g w) then [report] else []) /\
  w_sim (final r) = w_sim w /\ w_g (final r) = w_g w.
Proof.
  intros H Hne r report. subst r report.
  destruct (publish_denied w H) as [Hf Ht]. cbv zeta in Hf, Ht.
  unfold events. rewrite Hf, Ht. clear Hf Ht. unfold LOG_ERROR.
  destruct (g_log_fp (w_g w)) eqn:Hlog.
  - rewrite (Log_open _ _ _ Hlog).
    destruct (logged_frame
                (LogLine "ERROR"
                   ("Failed to open temp file for writing: " +:+ tmp_file_of w)) w)
      as (Hs & Hg & _ & _ & _ & Hl & Hfs & Hlf).
    cbn [final trace fst snd fmap list_fmap].
    split; [reflexivity |].
    split; [repeat constructor; cbn [snd]; auto |].
    split; [repeat constructor; cbn [snd]; auto |].
    repeat split; auto.
  - rewrite (Log_closed _ _ _ Hlog). cbn [final trace fst snd fmap list_fmap].
    rewrite app_nil_r.
    split; [reflexivity |].
    split; [repeat constructor |].
    split; [repeat constructor |].
    repeat split; auto.
Qed.

(** *** The tick *)

Lemma fprintf_all_quiet (path : string) (lines : list string) (w : world) :
  calls (trace (fprintf_all path lines w)) = [] /\
  delivered (trace (fprintf_all path lines w)) = [].
Proof.
  revert w; induction lines as [|l ls IH]; intros w; [split; reflexivity |].
  change (fprintf_all path (l :: ls)) with (fprintf path l ≫= fun _ => fprintf_all path ls).
  rewrite trace_bind, fprintf_trace. cbv beta.
  destruct (IH (final (fprintf path l w))) as [H1 H2].
  unfold calls, delivered in *. cbn [app omap list_omap fst]. split; assumption.
Qed.

Lemma rename_quiet (src dst : string) (w : world) :
  calls (trace (rename src dst w)) = [] /\ delivered (trace (rename src dst w)) = [].
Proof. unfold rename. destruct (files (w_os w) !! src); split; reflexivity. Qed.

(** A publish enters one routine, itself, and hands nothing to the applier. *)
Lemma publish_calls (w : world) :
  calls (trace (WriteTelemetryJSON printf_f w)) = [RWriteTelemetryJSON] /\
  delivered (trace (WriteTelemetryJSON printf_f w)) = [].
Proof.
  destruct (can_open (w_os w) (tmp_file_of w)) eqn:H.
  - destruct (publish_opened w H) as [_ Ht]. cbv zeta in Ht. rewrite Ht. clear Ht.
    destruct (rename_quiet (tmp_file_of w) (g_input_file (w_g w))
                (final (written printf_f w (opened w)))) as [Hr1 Hr2].
    destruct (fprintf_all_quiet (tmp_file_of w)
                (telemetry_lines printf_f (read_telemetry (opened w))) (opened w))
      as [Hw1 Hw2].
    fold (written printf_f w) in Hw1, Hw2.
    revert Hr1 Hr2 Hw1 Hw2.
    generalize (trace (rename (tmp_file_of w) (g_input_file (w_g w))
                         (final (written printf_f w (opened w))))).
    generalize (final (written printf_f w (opened w))).
    generalize (trace (written printf_f w (opened w))).
    intros tw wf tr Hr1 Hr2 Hw1 Hw2.
    unfold calls, delivered in *.
    cbn [omap list_omap fst]. rewrite !omap_app, Hw1, Hw2.
    cbn [omap list_omap fst app]. rewrite Hr1, Hr2. split; reflexivity.
  - destruct (publish_denied w H) as [_ Ht]. cbv zeta in Ht. rewrite Ht. clear Ht.
    destruct (Log_frame "ERROR"
                ("Failed to open temp file for writing: " +:+ tmp_file_of w) w)
      as (_ & _ & _ & _ & Hc & Hd).
    unfold LOG_ERROR, calls, delivered in *.
    cbn [omap list_omap fst]. rewrite Hc, Hd. split; reflexivity.
Qed.

Lemma tick_trace (w : world) :
  trace (FlightLoopCallback printf_f w) =
    (Call RFlightLoopCallback, w)
      :: trace (WriteTelemetryJSON printf_f w)
      ++ [(Call RReadCommandsJSONL, final (WriteTelemetryJSON printf_f w))].
Proof.
  unfold FlightLoopCallback. generalize (WriteTelemetryJSON printf_f). intros m.
  rewrite !trace_bind. cbv beta.
  change (final (enter RFlightLoopCallback w)) with w.
  generalize (m w). intros r.
  cbn [enter emit trace fst snd id app]. rewrite app_nil_r. reflexivity.
Qed.

Lemma fprintf_all_events (path : string) (lines : list string) (w : world) :
  Forall2 (fun e line => exists stored, e = Fprintf path line stored)
          (events (fprintf_all path lines w)) lines.
Proof.
  revert w; induction lines as [|l ls IH]; intros w; [constructor |].
  change (fprintf_all path (l :: ls)) with (fprintf path l ≫= fun _ => fprintf_all path ls).
  unfold events. rewrite trace_bind, fprintf_trace. cbv beta.
  cbn [app fmap list_fmap fst]. constructor; [eauto |]. apply IH.
Qed.

(** What the sampling phase does, call by call.  When the side file opens:
    one [fprintf] per line of the snapshot sampled from [w], in order, then
    the [fclose] and the rename onto the publication path.  When it does
    not: the failed [fopen] and, with the log open, the ERROR line. *)
Lemma publish_events (w : world) :
  if can_open (w_os w) (tmp_file_of w)
  then exists writes,
         events (WriteTelemetryJSON printf_f w) =
           Call RWriteTelemetryJSON :: Fopen (tmp_file_of w) true
             :: writes ++ [Fclose (tmp_file_of w);
                           Rename (tmp_file_of w) (g_input_file (w_g w)) true] /\
         Forall2 (fun e line => exists stored, e = Fprintf (tmp_file_of w) line stored)
                 writes (telemetry_lines printf_f (read_telemetry w))
  else events (WriteTelemetryJSON printf_f w) =
         Call RWriteTelemetryJSON :: Fopen (tmp_file_of w) false
           :: (if g_log_fp (w_g w)
               then [LogWrite (LogLine "ERROR"
                       ("Failed to open temp file for writing: " +:+ tmp_file_of w))]
               else []).
Proof.
  destruct (can_open (w_os w) (tmp_file_of w)) eqn:H.
  - destruct (publish_opened w H) as [_ Ht]. cbv zeta in Ht.
    pose proof (written_side_file w) as Hside.
    pose proof (fprintf_all_events (tmp_file_of w)
                  (telemetry_lines printf_f (read_telemetry (opened w))) (opened w)) as Hw.
    rewrite read_telemetry_opened in Hw at 2.
    fold (written printf_f w) in Hw.
    exists (events (written printf_f w (opened w))). split; [| exact Hw].
    unfold events. rewrite Ht. clear Ht Hw.
    rewrite (rename_present _ _ _ _ Hside). clear Hside.
    generalize (written printf_f w (opened w)). intros r.
    cbn [fmap list_fmap fst trace snd]. rewrite fmap_app. reflexivity.
  - destruct (publish_denied w H) as [_ Ht]. cbv zeta in Ht.
    unfold events. rewrite Ht. cbn [fmap list_fmap fst].
    change (trace (LOG_ERROR ?m w)).*1 with (events (Log "ERROR" m w)).
    unfold LOG_ERROR.
    destruct (g_log_fp (w_g w)) eqn:Hl.
    + rewrite (Log_open _ _ _ Hl). reflexivity.
    + rewrite (Log_closed _ _ _ Hl). reflexivity.
Qed.

(** C5: on every tick the sampling phase comes first and the draining
    phase after it, in the world the sampling left.  The sampling phase is
    the whole of [WriteTelemetryJSON]: with the side file open, one write
    per line of the snapshot sampled from the tick's world, then the close
    and the rename onto the publication path; with a failed [fopen], that
    failure and its ERROR line.  In both cases the draining routine is
    entered next, once, so a failed sampling does not keep it from
    running. *)
Theorem tick_samples_then_drains (w : world) :
  let r := FlightLoopCallback printf_f w in
  let s := WriteTelemetryJSON printf_f w in
  trace r = (Call RFlightLoopCallback, w) :: trace s
              ++ [(Call RReadCommandsJSONL, final s)] /\
  calls (trace s) = [RWriteTelemetryJSON] /\
  calls (trace r) = [RFlightLoopCallback; RWriteTelemetryJSON; RReadCommandsJSONL] /\
  (if can_open (w_os w) (tmp_file_of w)
   then exists writes,
          events r =
            Call RFlightLoopCallback :: Call RWriteTelemetryJSON
              :: Fopen (tmp_file_of w) true
              :: writes ++ [Fclose (tmp_file_of w);
                            Rename (tmp_file_of w) (g_input_file (w_g w)) true;
                            Call RReadCommandsJSONL] /\
          Forall2 (fun e line => exists stored, e = Fprintf (tmp_file_of w) line stored)
                  writes (telemetry_lines printf_f (read_telemetry w))
   else events r =
          Call RFlightLoopCallback :: Call RWriteTelemetryJSON
            :: Fopen (tmp_file_of w) false
            :: (if g_log_fp (w_g w)
                then [LogWrite (LogLine "ERROR"
                        ("Failed to open temp file for writing: " +:+ tmp_file_of w))]
                else [])
            ++ [Call RReadCommandsJSONL]).
Proof.
  intros r s. subst r s.
  destruct (publish_calls w) as [Hc _].
  pose proof (publish_events w) as He.
  split; [apply tick_trace | split; [exact Hc |]].
  unfold events in *. rewrite tick_trace. revert Hc He.
  generalize (final (WriteTelemetryJSON printf_f w)).
  generalize (trace (WriteTelemetryJSON printf_f w)).
  intros t wf Hc He. split.
  - unfold calls in *. cbn [omap list_omap fst]. rewrite omap_app, Hc. reflexivity.
  - cbn [fmap list_fmap fst]. rewrite fmap_app. cbn [fmap list_fmap fst].
    destruct (can_open (w_os w) (tmp_file_of w)).
    + destruct He as (writes & He & Hw). exists writes. split; [| exact Hw].
      rewrite He. cbn [app]. rewrite <- app_assoc. reflexivity.
    + rewrite He. reflexivity.
Qed.

(** The callback asks to be called again in one second. *)
Lemma tick_result (w : world) : result (FlightLoopCallback printf_f w) = 1%float.
Proof.
  unfold FlightLoopCallback. generalize (WriteTelemetryJSON printf_f). intros m.
  rewrite !result_bind. reflexivity.
Qed.

End Publication.

(** ** The host's view of the bridge: registrations and the handle *)

Lemma acts_bind {A B} (m : M A) (f : A -> M B) E1 E2 :
  acts_as m E1 -> (forall a, acts_as (f a) E2) ->
  acts_as (m ≫= f) (fun v => E2 (E1 v)).
Proof. intros H1 H2 w. rewrite final_bind, H2, H1. reflexivity. Qed.

Lemma acts_bind_id {A B} (m : M A) (f : A -> M B) E :
  acts_as m (fun v => v) -> (forall a, acts_as (f a) E) -> acts_as (m ≫= f) E.
Proof. intros H1 H2 w. rewrite final_bind, H2, H1. reflexivity. Qed.

Lemma acts_get {B} (f : world -> M B) E :
  (forall w0, acts_as (f w0) E) -> acts_as (get ≫= f) E.
Proof. intros H w. rewrite final_bind. apply H. Qed.

Lemma acts_ret {A} (a : A) : acts_as (mret a) (fun v => v).
Proof. intros w. reflexivity. Qed.

Lemma acts_enter (r : routine) : acts_as (enter r) (fun v => v).
Proof. intros w. reflexivity. Qed.

Lemma acts_Log (level msg : string) : acts_as (Log level msg) (fun v => v).
Proof.
  intros w. destruct (Log_frame level msg w) as (Hs & Hg & _).
  unfold host_view. now rewrite Hs, Hg.
Qed.

Lemma acts_LogOpen : acts_as LogOpen (fun v => v).
Proof.
  intros w. unfold LogOpen. rewrite final_bind. cbv beta.
  change (result (get w)) with w. change (final (get w)) with w.
  destruct (g_log_fp (w_g w)); [reflexivity |].
  destruct (can_open (w_os w) (g_log_file (w_g w))); reflexivity.
Qed.

Lemma acts_LogClose : acts_as LogClose (fun v => v).
Proof.
  intros w. unfold LogClose. rewrite final_bind. cbv beta.
  change (result (get w)) with w. change (final (get w)) with w.
  destruct (g_log_fp (w_g w)); reflexivity.
Qed.

Lemma acts_InitFilePaths : acts_as InitFilePaths (fun v => v).
Proof. intros w. reflexivity. Qed.

Lemma acts_InitDataRefs : acts_as InitDataRefs (fun v => v).
Proof.
  unfold InitDataRefs. apply acts_get; intros w0.
  apply acts_bind_id; [intros w; reflexivity | intros _; apply acts_Log].
Qed.

Lemma acts_XPluginStart : acts_as XPluginStart started_view.
Proof.
  unfold XPluginStart.
  apply acts_bind_id; [apply acts_enter | intros _].
  apply acts_bind_id; [apply acts_InitFilePaths | intros _].
  apply acts_bind_id; [apply acts_LogOpen | intros _].
  apply acts_bind_id; [apply acts_Log | intros _].
  apply acts_get; intros w0.
  apply acts_bind_id; [apply acts_Log | intros _].
  apply acts_bind_id; [apply acts_InitDataRefs | intros _].
  intros w. rewrite final_bind. cbv beta.
  change (result (XPLMCreateFlightLoop w)) with (next_loop (w_sim w)).
  rewrite final_bind. cbv beta.
  rewrite final_bind. cbv beta.
  set (w2 := final (modify _ _)).
  destruct (Log_frame "INFO" "Plugin started successfully" w2) as (Hs & Hg & _).
  unfold LOG_INFO, host_view.
  rewrite final_ret, Hs, Hg. reflexivity.
Qed.

Lemma acts_XPluginStop : acts_as XPluginStop stopped_view.
Proof.
  unfold XPluginStop.
  apply acts_bind_id; [apply acts_enter | intros _].
  intros w. rewrite final_bind. cbv beta.
  change (result (get w)) with w. change (final (get w)) with w.
  rewrite final_bind. cbv beta. rewrite final_bind. cbv beta.
  rewrite acts_LogClose. unfold LOG_INFO. rewrite acts_Log.
  unfold host_view, stopped_view. cbn [fst snd].
  destruct (g_flight_loop_id (w_g w)) as [id|] eqn:E; [reflexivity |].
  rewrite final_ret, E. reflexivity.
Qed.

Lemma LogClose_closed (w : world) :
  g_log_fp (w_g w) = false -> LogClose w = (tt, w, []).
Proof.
  intros H. unfold LogClose.
  cbv beta iota zeta delta [mbind M_bind get fst snd].
  rewrite H. reflexivity.
Qed.

(** A stop with no handle and no log stream changes nothing at all. *)
Lemma stop_without_start (w : world) :
  g_flight_loop_id (w_g w) = None -> g_log_fp (w_g w) = false ->
  final (XPluginStop w) = w /\ Forall (fun ew => ew.2 = w) (trace (XPluginStop w)).
Proof.
  intros Hid Hlog. unfold XPluginStop.
  rewrite !final_bind, !trace_bind. cbv beta.
  change (result (get (final (enter RXPluginStop w)))) with w.
  change (final (get (final (enter RXPluginStop w)))) with w.
  rewrite Hid. cbv iota. rewrite !final_ret.
  unfold LOG_INFO. rewrite (Log_closed _ _ _ Hlog).
  change (final ((), w, [])) with w.
  rewrite (LogClose_closed _ Hlog).
  split; [reflexivity |].
  cbv beta iota delta [trace enter emit get mret M_ret fst snd app id final].
  repeat constructor.
Qed.

Lemma host_view_inv (w : world) (v : simulator * option nat) :
  host_view w = v -> w_sim w = v.1 /\ g_flight_loop_id (w_g w) = v.2.
Proof. intros <-. split; reflexivity. Qed.

Lemma start_view (w : world) :
  w_sim (final (XPluginStart w)) =
    set_loops (<[next_loop (w_sim w) := 0%float]> (loops (w_sim w)))
              (S (next_loop (w_sim w))) (w_sim w) /\
  g_flight_loop_id (w_g (final (XPluginStart w))) = Some (next_loop (w_sim w)).
Proof. exact (host_view_inv _ _ (acts_XPluginStart w)). Qed.

Lemma stop_view (w : world) :
  w_sim (final (XPluginStop w)) =
    match g_flight_loop_id (w_g w) with
    | Some id => set_loops (delete id (loops (w_sim w))) (next_loop (w_sim w)) (w_sim w)
    | None => w_sim w
    end /\
  g_flight_loop_id (w_g (final (XPluginStop w))) = None.
Proof. exact (host_view_inv _ _ (acts_XPluginStop w)). Qed.

(** Start then stop, from a state holding no registration, leaves the
    host's table of registrations as it was. *)
Lemma start_stop_cycle (w : world) :
  host_fresh (w_sim w) ->
  let w' := final (XPluginStop (final (XPluginStart w))) in
  loops (w_sim w') = loops (w_sim w) /\
  loops (w_sim w') !! next_loop (w_sim w) = None /\
  g_flight_loop_id (w_g w') = None.
Proof.
  intros Hfresh.
  assert (loops (w_sim w) !! next_loop (w_sim w) = None) as Hn
    by (apply Hfresh; lia).
  destruct (start_view w) as [Hs1 Hg1].
  destruct (stop_view (final (XPluginStart w))) as [Hs2 Hg2].
  revert Hs1 Hg1 Hs2 Hg2.
  generalize (final (XPluginStop (final (XPluginStart w)))).
  generalize (final (XPluginStart w)).
  intros w1 w2 Hs1 Hg1 Hs2 Hg2. cbv zeta.
  rewrite Hg1, Hs1 in Hs2. rewrite Hs2, Hg2.
  cbn [loops set_loops].
  rewrite delete_insert_id by exact Hn. auto.
Qed.

(** After a start the handle names the registration just made; after a stop
    there is no handle: either way the bridge's state is valid. *)
Lemma start_valid (w : world) : bridge_valid (final (XPluginStart w)).
Proof.
  destruct (start_view w) as [Hs Hg]. revert Hs Hg.
  generalize (final (XPluginStart w)). intros w1 Hs Hg.
  intros id Hid. rewrite Hg in Hid. injection Hid as <-.
  rewrite Hs. cbn [loops set_loops]. rewrite lookup_insert_eq. eauto.
Qed.

Lemma stop_valid (w : world) : bridge_valid (final (XPluginStop w)).
Proof.
  destruct (stop_view w) as [_ Hg]. revert Hg.
  generalize (final (XPluginStop w)). intros w1 Hg.
  intros id Hid. rewrite Hg in Hid. discriminate.
Qed.

(** ** Enabling *)

Lemma Log_events (level msg : string) (w : world) :
  events (Log level msg w) =
    if g_log_fp (w_g w) then [LogWrite (LogLine level msg)] else [].
Proof.
  destruct (g_log_fp (w_g w)) eqn:H.
  - rewrite (Log_open _ _ _ H). reflexivity.
  - rewrite (Log_closed _ _ _ H). reflexivity.
Qed.

Lemma enable_with_handle (w : world) (id : nat) :
  g_flight_loop_id (w_g w) = Some id ->
  let msg := "Plugin enabled - telemetry streaming started" in
  let w1 := final (XPLMScheduleFlightLoop id 1%float w) in
  final (XPluginEnable w) = final (Log "INFO" msg w1) /\
  trace (XPluginEnable w) =
    (Call RXPluginEnable, w) :: (ScheduleFlightLoop id 1%float, w1)
      :: trace (Log "INFO" msg w1).
Proof.
  intros H msg w1. subst msg w1. unfold XPluginEnable.
  rewrite !final_bind, !trace_bind. cbv beta.
  change (result (get (final (enter RXPluginEnable w)))) with w.
  change (final (get (final (enter RXPluginEnable w)))) with w.
  rewrite H. cbv iota. rewrite !final_ret, !trace_ret, app_nil_r. unfold LOG_INFO.
  split; reflexivity.
Qed.

Lemma enable_without_handle (w : world) :
  g_flight_loop_id (w_g w) = None ->
  let msg := "Plugin enabled - telemetry streaming started" in
  final (XPluginEnable w) = final (Log "INFO" msg w) /\
  trace (XPluginEnable w) = (Call RXPluginEnable, w) :: trace (Log "INFO" msg w).
Proof.
  intros H msg. subst msg. unfold XPluginEnable.
  rewrite !final_bind, !trace_bind. cbv beta.
  change (result (get (final (enter RXPluginEnable w)))) with w.
  change (final (get (final (enter RXPluginEnable w)))) with w.
  rewrite H. cbv iota. rewrite !final_ret, !trace_ret, app_nil_r. unfold LOG_INFO.
  split; reflexivity.
Qed.

Lemma schedule_live (w : world) (id : nat) (t t0 : float) :
  loops (w_sim w) !! id = Some t0 ->
  loops (w_sim (final (XPLMScheduleFlightLoop id t w))) = <[id := t]> (loops (w_sim w)).
Proof.
  intros H. unfold XPLMScheduleFlightLoop, emit, final, with_sim.
  cbn [fst snd w_sim]. rewrite H. reflexivity.
Qed.

(** Every interval [XPluginEnable] asks the host for is one second. *)
Lemma enable_interval (w : world) (id : nat) (t : float) :
  In (ScheduleFlightLoop id t) (events (XPluginEnable w)) -> t = 1%float.
Proof.
  unfold events. destruct (g_flight_loop_id (w_g w)) as [id0|] eqn:H.
  - destruct (enable_with_handle w id0 H) as [_ Ht]. cbv zeta in Ht. rewrite Ht.
    rewrite !fmap_cons. fold (events (Log "INFO" "Plugin enabled - telemetry streaming started"
                               (final (XPLMScheduleFlightLoop id0 1%float w)))).
    rewrite Log_events. cbn [fst].
    intros [Hc | [Hs | Hl]]; [discriminate | congruence |].
    destruct (g_log_fp _); cbn in Hl; [destruct Hl as [Hl | []]; discriminate | contradiction].
  - destruct (enable_without_handle w H) as [_ Ht]. cbv zeta in Ht. rewrite Ht.
    rewrite !fmap_cons. fold (events (Log "INFO" "Plugin enabled - telemetry streaming started" w)).
    rewrite Log_events. cbn [fst].
    intros [Hc | Hl]; [discriminate |].
    destruct (g_log_fp _); cbn in Hl; [destruct Hl as [Hl | []]; discriminate | contradiction].
Qed.

(** C9, amended: the tick has a period of one second, fixed in the code:
    enabling a bridge whose handle names a live registration schedules that
    registration at an interval of 1 second, and every tick answers the
    host with 1, the delay to its next call. *)
Theorem tick_period_is_one_second
    (printf_f : nat -> float -> string) (w : world) (id : nat) :
  g_flight_loop_id (w_g w) = Some id ->
  is_Some (loops (w_sim w) !! id) ->
  In (ScheduleFlightLoop id 1%float) (events (XPluginEnable w)) /\
  loops (w_sim (final (XPluginEnable w))) !! id = Some 1%float /\
  (forall w', result (FlightLoopCallback printf_f w') = 1%float).
Proof.
  intros Hid [t0 Hlive].
  destruct (enable_with_handle w id Hid) as [Hf Ht]. cbv zeta in Hf, Ht.
  split; [| split].
  - unfold events. rewrite Ht. right. left. reflexivity.
  - rewrite Hf.
    destruct (Log_frame "INFO" "Plugin enabled - telemetry streaming started"
                (final (XPLMScheduleFlightLoop id 1%float w))) as (Hs & _).
    rewrite Hs, (schedule_live _ _ _ _ Hlive). apply lookup_insert_eq.
  - intros w'. apply tick_result.
Qed.

(** ** Lifecycle misuse *)

(** C8, amended: a stop without a prior start changes nothing; a start, a
    second start and a stop each leave the bridge's state valid (the handle,
    when set, names a live registration); and after a start followed by a
    stop the registration that start created no longer exists, the host's
    table being what it was before. *)
Theorem lifecycle_stop_is_defensive (w : world) :
  g_flight_loop_id (w_g w) = None ->
  g_log_fp (w_g w) = false ->
  host_fresh (w_sim w) ->
  final (XPluginStop w) = w /\
  bridge_valid (final (XPluginStart w)) /\
  bridge_valid (final (XPluginStart (final (XPluginStart w)))) /\
  bridge_valid (final (XPluginStop w)) /\
  loops (w_sim (final (XPluginStop (final (XPluginStart w))))) = loops (w_sim w) /\
  loops (w_sim (final (XPluginStop (final (XPluginStart w))))) !! next_loop (w_sim w)
    = None /\
  g_flight_loop_id (w_g (final (XPluginStop (final (XPluginStart w))))) = None.
Proof.
  intros Hid Hlog Hfresh.
  split; [apply stop_without_start; assumption |].
  split; [apply start_valid |].
  split; [apply start_valid |].
  split; [apply stop_valid |].
  apply (start_stop_cycle w Hfresh).
Qed.

(** ** Draining *)

(** C10: the drain step has no effect at all: whatever the command log and
    the simulator hold, it leaves the whole world (files, simulator, plugin
    globals) as it found it at every instant, and hands no record to the
    applier. *)
Theorem drain_has_no_effect (w : world) :
  final (ReadCommandsJSONL w) = w /\
  Forall (fun ew => ew.2 = w) (trace (ReadCommandsJSONL w)) /\
  events (ReadCommandsJSONL w) = [Call RReadCommandsJSONL] /\
  delivered (trace (ReadCommandsJSONL w)) = [] /\
  command_log (final (ReadCommandsJSONL w)) = command_log w.
Proof.
  repeat split; try reflexivity. repeat constructor.
Qed.

(** ** The code on concrete worlds *)

(** C1, at a world whose disk takes 40 more bytes: the publish still
    renames the side file, and the publication path, which held a complete
    earlier snapshot, ends up holding the first 40 bytes of the new one,
    neither the previous document nor the complete new one. *)
Theorem disk_full_publishes_truncated_snapshot :
  files (w_os w_disk_full) !! g_input_file (w_g w_disk_full) = Some ("{}" +:+ nl) /\
  In (Rename (tmp_file_of w_disk_full) (g_input_file (w_g w_disk_full)) true)
     (events (WriteTelemetryJSON glibc_printf_f w_disk_full)) /\
  files (w_os (final (WriteTelemetryJSON glibc_printf_f w_disk_full)))
    !! g_input_file (w_g w_disk_full) = Some truncated_snapshot /\
  truncated_snapshot <> document_of glibc_printf_f w_disk_full /\
  truncated_snapshot <> "{}" +:+ nl /\
  String.length truncated_snapshot = 40 /\
  String.length (document_of glibc_printf_f w_disk_full) = 818.
Proof.
  split; [vm_compute; reflexivity |].
  split; [vm_compute; tauto |].
  split; [vm_compute; reflexivity |].
  split; [vm_compute; discriminate |].
  split; [vm_compute; discriminate |].
  split; vm_compute; reflexivity.
Qed.

(** C2 as stated fails twice.  On the disk that fills up, the write to the
    side file comes short, yet the rename is performed and the publication
    path loses its previous content to a truncated document.  On the
    directory that cannot be written, the publish stops after the failed
    open with the world untouched and nothing said to anyone: the routine
    returns no value and the log stream is closed. *)
Lemma short_write_is_published_and_failure_unreported :
  (In (Rename (tmp_file_of w_disk_full) (g_input_file (w_g w_disk_full)) true)
      (events (WriteTelemetryJSON glibc_printf_f w_disk_full)) /\
   files (w_os w_disk_full) !! g_input_file (w_g w_disk_full) = Some ("{}" +:+ nl) /\
   files (w_os (final (WriteTelemetryJSON glibc_printf_f w_disk_full)))
     !! g_input_file (w_g w_disk_full) = Some truncated_snapshot) /\
  (events (WriteTelemetryJSON glibc_printf_f w_denied) =
     [Call RWriteTelemetryJSON; Fopen (tmp_file_of w_denied) false] /\
   log_out (w_os (final (WriteTelemetryJSON glibc_printf_f w_denied))) = [] /\
   WriteTelemetryJSON glibc_printf_f w_denied
     = (tt, w_denied, trace (WriteTelemetryJSON glibc_printf_f w_denied))).
Proof.
  split; [split; [vm_compute; tauto | split; vm_compute; reflexivity] |].
  split; [vm_compute; reflexivity |].
  split; [vm_compute; reflexivity |].
  reflexivity.
Qed.

(** C3, at the scenario's input: the log holds one complete record, the
    drain hands nothing to the applier, alone or within a whole tick, and
    the record is still in the log afterwards. *)
Theorem drain_after_append_returns_nothing :
  complete_records (command_log w_one_command) = [set_com1_record] /\
  delivered (trace (ReadCommandsJSONL w_one_command)) = [] /\
  delivered (trace (FlightLoopCallback glibc_printf_f w_one_command)) = [] /\
  command_log (final (ReadCommandsJSONL w_one_command)) = set_com1_record +:+ nl /\
  command_log (final (FlightLoopCallback glibc_printf_f w_one_command))
    = set_com1_record +:+ nl.
Proof. repeat split; vm_compute; reflexivity. Qed.

(** C4, at a log of one complete record and an unterminated fragment: the
    drain hands nothing to the applier and the log keeps the complete
    record together with the fragment. *)
Theorem drain_with_fragment_returns_nothing :
  complete_records (command_log w_fragment) = [set_com1_record] /\
  trailing_fragment (command_log w_fragment) = half_record /\
  delivered (trace (ReadCommandsJSONL w_fragment)) = [] /\
  command_log (final (ReadCommandsJSONL w_fragment))
    = set_com1_record +:+ nl +:+ half_record /\
  command_log (final (ReadCommandsJSONL w_fragment)) <> half_record.
Proof.
  split; [vm_compute; reflexivity |].
  split; [vm_compute; reflexivity |].
  split; [vm_compute; reflexivity |].
  split; [vm_compute; reflexivity | vm_compute; discriminate].
Qed.

(** C6, at an aircraft file name that holds double quotes: the name is
    printed as it is, so the published snapshot, which shows the ten
    top-level fields of the schema for a plain name, shows an eleventh
    here, which the name brought in. *)
Theorem unescaped_aircraft_name_adds_a_field :
  sim_acf_file (w_sim w_quoted) = quoted_name /\
  files (w_os (final (WriteTelemetryJSON glibc_printf_f w_started)))
    !! g_input_file (w_g w_started) = Some (document_of glibc_printf_f w_started) /\
  top_level_keys (document_of glibc_printf_f w_started) =
    ["timestamp"; "simulator"; "aircraft"; "position"; "orientation";
     "speed"; "radios"; "transponder"; "autopilot"; "state"] /\
  files (w_os (final (WriteTelemetryJSON glibc_printf_f w_quoted)))
    !! g_input_file (w_g w_quoted) = Some (document_of glibc_printf_f w_quoted) /\
  top_level_keys (document_of glibc_printf_f w_quoted) =
    ["timestamp"; "simulator"; "aircraft"; "hacked"; "position"; "orientation";
     "speed"; "radios"; "transponder"; "autopilot"; "state"].
Proof. repeat split; vm_compute; reflexivity. Qed.

(** C8 as stated fails on a second start: it is not a no-op, since it
    registers a second flight loop and moves the handle to it, and the stop
    that follows destroys only that one, so that the registration made by
    the first start is still in the host's table. *)
Lemma second_start_leaks_registration :
  g_flight_loop_id (w_g w_started) = Some 1 /\
  dom (loops (w_sim w_started)) = {[ 1 ]} /\
  g_flight_loop_id (w_g w_restarted) = Some 2 /\
  dom (loops (w_sim w_restarted)) = {[ 1; 2 ]} /\
  g_flight_loop_id (w_g w_restarted_stopped) = None /\
  loops (w_sim w_restarted_stopped) !! 1 = Some 0%float.
Proof.
  split; [vm_compute; reflexivity |].
  split; [apply leibniz_equiv; vm_compute; set_solver |].
  split; [vm_compute; reflexivity |].
  split; [| split; vm_compute; reflexivity].
  vm_compute. reflexivity.
Qed.

(** C9 as stated fails: enabling a bridge that holds no registration
    schedules nothing, and nothing the plugin can be given changes the
    period, every interval asked for and every answer of the tick being 1. *)
Lemma tick_period_not_configurable :
  (events (XPluginEnable w_init) = [Call RXPluginEnable] /\
   loops (w_sim (final (XPluginEnable w_init))) = ∅) /\
  (forall w id t, In (ScheduleFlightLoop id t) (events (XPluginEnable w)) -> t = 1%float) /\
  (forall w, result (FlightLoopCallback glibc_printf_f w) = 1%float).
Proof.
  split; [split; vm_compute; reflexivity |].
  split; [apply enable_interval | apply tick_result].
Qed.

(** ** The theorems at concrete worlds *)

Lemma failed_open_abandons_publish_witness :
  can_open (w_os w_unwritable) (tmp_file_of w_unwritable) = false /\
  g_input_file (w_g w_unwritable) <> g_log_file (w_g w_unwritable) /\
  g_log_fp (w_g w_unwritable) = true /\
  files (w_os w_unwritable) !! g_input_file (w_g w_unwritable) = Some ("{}" +:+ nl) /\
  events (WriteTelemetryJSON glibc_printf_f w_unwritable) =
    [Call RWriteTelemetryJSON; Fopen (tmp_file_of w_unwritable) false;
     LogWrite (LogLine "ERROR"
       ("Failed to open temp file for writing: " +:+ tmp_file_of w_unwritable))] /\
  files (w_os (final (WriteTelemetryJSON glibc_printf_f w_unwritable)))
    !! g_input_file (w_g w_unwritable) = Some ("{}" +:+ nl) /\
  files (w_os (final (WriteTelemetryJSON glibc_printf_f w_unwritable)))
    !! g_log_file (w_g w_unwritable) =
    Some (default "" (files (w_os w_unwritable) !! g_log_file (w_g w_unwritable))
          +:+ "[00:16:40] [ERROR] Failed to open temp file for writing: "
          +:+ tmp_file_of w_unwritable +:+ nl) /\
  log_out (w_os (final (WriteTelemetryJSON glibc_printf_f w_unwritable))) =
    log_out (w_os w_unwritable) ++
    [LogLine "ERROR"
       ("Failed to open temp file for writing: " +:+ tmp_file_of w_unwritable)].
Proof.
  assert (can_open (w_os w_unwritable) (tmp_file_of w_unwritable) = false) as H1
    by (vm_compute; reflexivity).
  assert (g_input_file (w_g w_unwritable) <> g_log_file (w_g w_unwritable)) as H2
    by (vm_compute; discriminate).
  destruct (failed_open_abandons_publish glibc_printf_f w_unwritable H1 H2)
    as (He & _ & _ & Hp & _ & Hl & Ho & _).
  split; [exact H1 | split; [exact H2 | split; [reflexivity |]]].
  split; [vm_compute; reflexivity |].
  split; [exact He |].
  split; [rewrite Hp; vm_compute; reflexivity |].
  split; [rewrite Hl; vm_compute; reflexivity | exact Ho].
Defined.

Lemma tick_samples_then_drains_witness :
  can_open (w_os w_unwritable) (tmp_file_of w_unwritable) = false /\
  g_log_fp (w_g w_unwritable) = true /\
  events (FlightLoopCallback glibc_printf_f w_unwritable) =
    [Call RFlightLoopCallback; Call RWriteTelemetryJSON;
     Fopen (tmp_file_of w_unwritable) false;
     LogWrite (LogLine "ERROR"
       ("Failed to open temp file for writing: " +:+ tmp_file_of w_unwritable));
     Call RReadCommandsJSONL].
Proof.
  assert (can_open (w_os w_unwritable) (tmp_file_of w_unwritable) = false) as H1
    by (vm_compute; reflexivity).
  assert (g_log_fp (w_g w_unwritable) = true) as H2 by reflexivity.
  split; [exact H1 | split; [exact H2 |]].
  destruct (tick_samples_then_drains glibc_printf_f w_unwritable) as (_ & _ & _ & H).
  rewrite H1, H2 in H. exact H.
Defined.

Lemma unavailable_field_published_as_sentinel_witness :
  dr (w_g w_started) dr_xpdr_code = None /\
  can_open (w_os w_started) (tmp_file_of w_started) = true /\
  String.length (g_input_file (w_g w_started)) <= 1019 /\
  room (quota (w_os w_started)) (String.length (document_of glibc_printf_f w_started)) /\
  files (w_os (final (WriteTelemetryJSON glibc_printf_f w_started)))
    !! g_input_file (w_g w_started) =
    Some (Libc.cat (print_document glibc_printf_f
                      (snapshot_document (read_telemetry w_started)))) /\
  doc_lookup (snapshot_document (read_telemetry w_started)) "transponder" "code"
    = Some (LInt 0).
Proof.
  assert (dr (w_g w_started) dr_xpdr_code = None) as H0 by reflexivity.
  assert (can_open (w_os w_started) (tmp_file_of w_started) = true) as H1
    by reflexivity.
  assert (String.length (g_input_file (w_g w_started)) <= 1019) as H2
    by (apply Nat.leb_le; vm_compute; reflexivity).
  assert (room (quota (w_os w_started))
               (String.length (document_of glibc_printf_f w_started))) as H3
    by (vm_compute; exact I).
  split; [exact H0 | split; [exact H1 | split; [exact H2 | split; [exact H3 |]]]].
  exact (unavailable_field_published_as_sentinel glibc_printf_f w_started
           dr_xpdr_code H0 H1 H2 H3).
Defined.

Lemma lifecycle_stop_is_defensive_witness :
  g_flight_loop_id (w_g w_init) = None /\
  g_log_fp (w_g w_init) = false /\
  host_fresh (w_sim w_init) /\
  final (XPluginStop w_init) = w_init /\
  bridge_valid (final (XPluginStart w_init)) /\
  bridge_valid (final (XPluginStart (final (XPluginStart w_init)))) /\
  bridge_valid (final (XPluginStop w_init)) /\
  loops (w_sim (final (XPluginStop (final (XPluginStart w_init)))))
    = loops (w_sim w_init) /\
  loops (w_sim (final (XPluginStop (final (XPluginStart w_init)))))
    !! next_loop (w_sim w_init) = None /\
  g_flight_loop_id (w_g (final (XPluginStop (final (XPluginStart w_init))))) = None.
Proof.
  assert (host_fresh (w_sim w_init)) as H3 by (intros id _; reflexivity).
  split; [reflexivity | split; [reflexivity | split; [exact H3 |]]].
  exact (lifecycle_stop_is_defensive w_init eq_refl eq_refl H3).
Defined.

Lemma tick_period_is_one_second_witness :
  g_flight_loop_id (w_g w_started) = Some 1 /\
  is_Some (loops (w_sim w_started) !! 1) /\
  In (ScheduleFlightLoop 1 1%float) (events (XPluginEnable w_started)) /\
  loops (w_sim (final (XPluginEnable w_started))) !! 1 = Some 1%float /\
  (forall w', result (FlightLoopCallback glibc_printf_f w') = 1%float).
Proof.
  assert (g_flight_loop_id (w_g w_started) = Some 1) as H1 by reflexivity.
  assert (is_Some (loops (w_sim w_started) !! 1)) as H2
    by (exists 0%float; vm_compute; reflexivity).
  split; [exact H1 | split; [exact H2 |]].
  exact (tick_period_is_one_second glibc_printf_f w_started 1 H1 H2).
Defined.

(** * Further properties of the code *)

(** ** File paths *)

Lemma snprintf_fits (size : nat) (s : string) :
  String.length s <= size - 1 -> Libc.snprintf size s = s.
Proof. apply take_all. Qed.

Lemma data_dir_length (w : world) :
  String.length (g_data_dir (w_g (final (InitFilePaths w)))) <= 511.
Proof.
  change (g_data_dir (w_g (final (InitFilePaths w))))
    with (match home (w_os w) with
          | Some h => Libc.snprintf 512 (h +:+ "/.local/share/StratusATC")
          | None => Libc.snprintf 512 "/tmp/StratusATC"
          end).
  unfold Libc.snprintf. destruct (home (w_os w)); apply length_take.
Qed.

Lemma path_in_dir (d name : string) :
  String.length d <= 511 -> String.length name <= 30 ->
  Libc.snprintf 1024 (d +:+ "/" +:+ name) = d +:+ "/" +:+ name.
Proof.
  intros Hd Hn. apply snprintf_fits. rewrite !length_app_s.
  change (String.length "/") with 1. change (1024 - 1) with 1023. lia.
Qed.

(** X1: however long the home directory is, [InitFilePaths] keeps the data
    directory within its buffer (at most 511 characters) and never cuts a
    file name: the three paths are the directory followed by a slash and the
    full name of the file. *)
Theorem InitFilePaths_never_cuts_file_names (w : world) :
  let g := w_g (final (InitFilePaths w)) in
  String.length (g_data_dir g) <= 511 /\
  g_input_file g = g_data_dir g +:+ "/simAPI_input.json" /\
  g_output_file g = g_data_dir g +:+ "/simAPI_output.jsonl" /\
  g_log_file g = g_data_dir g +:+ "/stratus_atc.log".
Proof.
  intros g. pose proof (data_dir_length w) as Hd. fold g in Hd.
  split; [exact Hd |].
  set (d := g_data_dir g) in *.
  change (g_input_file g) with (Libc.snprintf 1024 (d +:+ "/" +:+ "simAPI_input.json")).
  change (g_output_file g) with (Libc.snprintf 1024 (d +:+ "/" +:+ "simAPI_output.jsonl")).
  change (g_log_file g) with (Libc.snprintf 1024 (d +:+ "/" +:+ "stratus_atc.log")).
  clearbody d. clear g.
  rewrite !path_in_dir by (try exact Hd; vm_compute; lia).
  repeat split; reflexivity.
Qed.

Lemma paths_after_init (w : world) :
  let g := w_g (final (InitFilePaths w)) in
  g_input_file g = g_data_dir g +:+ "/simAPI_input.json" /\
  g_output_file g = g_data_dir g +:+ "/simAPI_output.jsonl" /\
  g_log_file g = g_data_dir g +:+ "/stratus_atc.log" /\
  tmp_file_of (final (InitFilePaths w)) = g_data_dir g +:+ "/simAPI_input.json.tmp".
Proof.
  intros g. pose proof (data_dir_length w) as Hd. fold g in Hd.
  destruct (tmp_file_distinct (final (InitFilePaths w)) (InitFilePaths_length w))
    as [Ht _].
  fold g in Ht. revert Ht. generalize (tmp_file_of (final (InitFilePaths w))).
  intros t Ht.
  set (d := g_data_dir g) in *.
  change (g_input_file g) with (Libc.snprintf 1024 (d +:+ "/" +:+ "simAPI_input.json")) in *.
  change (g_output_file g) with (Libc.snprintf 1024 (d +:+ "/" +:+ "simAPI_output.jsonl")).
  change (g_log_file g) with (Libc.snprintf 1024 (d +:+ "/" +:+ "stratus_atc.log")).
  clearbody d. clear g.
  rewrite !path_in_dir by (try exact Hd; vm_compute; lia).
  rewrite path_in_dir in Ht by (try exact Hd; vm_compute; lia).
  repeat split; try reflexivity.
  rewrite Ht, app_assoc_s. reflexivity.
Qed.

(** X2: after [InitFilePaths] the snapshot file, the command log, the
    plugin's log file and the side file of the publisher are four different
    paths, whatever the home directory is. *)
Theorem InitFilePaths_paths_distinct (w : world) :
  let w' := final (InitFilePaths w) in
  g_input_file (w_g w') <> g_output_file (w_g w') /\
  g_input_file (w_g w') <> g_log_file (w_g w') /\
  g_output_file (w_g w') <> g_log_file (w_g w') /\
  tmp_file_of w' <> g_input_file (w_g w') /\
  tmp_file_of w' <> g_output_file (w_g w') /\
  tmp_file_of w' <> g_log_file (w_g w').
Proof.
  intros w'. destruct (paths_after_init w) as (Hi & Ho & Hl & Ht).
  fold w' in Hi, Ho, Hl, Ht. rewrite Hi, Ho, Hl, Ht.
  generalize (g_data_dir (w_g w')). intros d.
  repeat split; intros E; apply (String.app_inj d) in E; discriminate E.
Qed.

(** ** Dataref bindings and sampling *)

(** X3: the table of [InitDataRefs] binds the 25 globals to 25 different
    datarefs: two globals have the same path only when they are the same
    global. *)
Theorem dataref_path_injective (v1 v2 : dataref_var) :
  dataref_path v1 = dataref_path v2 <-> v1 = v2.
Proof.
  split; [| intros ->; reflexivity].
  destruct v1, v2; intros E; try reflexivity; discriminate E.
Qed.

Lemma InitDataRefs_binds (w : world) (v : dataref_var) :
  dr (w_g (final (InitDataRefs w))) v = XPLMFindDataRef (w_sim w) (dataref_path v) /\
  w_sim (final (InitDataRefs w)) = w_sim w.
Proof.
  unfold InitDataRefs. rewrite !final_bind. cbv beta.
  change (result (get w)) with w. change (final (get w)) with w.
  set (w1 := final (modify _ w)).
  destruct (Log_frame "INFO" "DataRefs initialized" w1) as (Hs & Hg & _).
  unfold LOG_INFO. rewrite Hs, Hg. split; reflexivity.
Qed.

Lemma bound_lookup (w : world) (v : dataref_var) :
  dr (w_g w) v = Some (dataref_path v) ->
  doc_lookup (snapshot_document (read_telemetry w))
             (snapshot_field v).1 (snapshot_field v).2 = Some (field_value (w_sim w) v).
Proof.
  intros H.
  destruct v; unfold doc_lookup, snapshot_document, read_telemetry, field_value;
    cbn; unfold read_d, read_f, read_i; rewrite H; reflexivity.
Qed.

(** X4: after [InitDataRefs], a field whose dataref the simulator knows is
    sampled from that very dataref, through the accessor of its C type, and
    shown under its own group and key: latitude and longitude as doubles to
    8 decimals, the MSL altitude as a double to 2, the other reals as floats
    to 2 (autopilot targets to 0), the radio and transponder values as
    integers, the two flags as true exactly when the integer is not 0. *)
Theorem sampled_field_shows_its_dataref (w : world) (v : dataref_var) :
  sim_has (w_sim w) (dataref_path v) = true ->
  doc_lookup (snapshot_document (read_telemetry (final (InitDataRefs w))))
             (snapshot_field v).1 (snapshot_field v).2
    = Some (field_value (w_sim w) v).
Proof.
  intros H. destruct (InitDataRefs_binds w v) as [Hb Hs].
  rewrite <- Hs. apply bound_lookup. rewrite Hb. unfold XPLMFindDataRef.
  rewrite H. reflexivity.
Qed.

(** X5: [InitDataRefs] leaves a global unbound exactly when the simulator
    does not know its dataref, and a later sample then shows the default of
    that field; the simulator itself is not touched. *)
Theorem unknown_dataref_samples_default (w : world) (v : dataref_var) :
  sim_has (w_sim w) (dataref_path v) = false ->
  dr (w_g (final (InitDataRefs w))) v = None /\
  doc_lookup (snapshot_document (read_telemetry (final (InitDataRefs w))))
             (snapshot_field v).1 (snapshot_field v).2 = Some (sentinel v) /\
  w_sim (final (InitDataRefs w)) = w_sim w.
Proof.
  intros H. destruct (InitDataRefs_binds w v) as [Hb Hs].
  assert (dr (w_g (final (InitDataRefs w))) v = None) as Hn
    by (rewrite Hb; unfold XPLMFindDataRef; rewrite H; reflexivity).
  split; [exact Hn | split; [| exact Hs]].
  apply sentinel_lookup. exact Hn.
Qed.

(** ** The plugin's log *)

Lemma Log_view (level msg : string) (w : world) :
  log_out (w_os (final (Log level msg w))) =
    log_out (w_os w) ++ (if g_log_fp (w_g w) then [LogLine level msg] else []) /\
  w_g (final (Log level msg w)) = w_g w /\
  w_sim (final (Log level msg w)) = w_sim w /\
  can_open (w_os (final (Log level msg w))) = can_open (w_os w) /\
  (forall p, p <> g_log_file (w_g w) ->
             files (w_os (final (Log level msg w))) !! p = files (w_os w) !! p).
Proof.
  destruct (g_log_fp (w_g w)) eqn:H.
  - rewrite (Log_open _ _ _ H). cbn [final fst snd].
    destruct (logged_frame (LogLine level msg) w) as (Hs & Hg & Hc & _ & _ & Hl & Hf & _).
    repeat split; assumption.
  - rewrite (Log_closed _ _ _ H). cbn [final fst snd]. rewrite app_nil_r.
    repeat split; reflexivity.
Qed.

Lemma LogOpen_final (w : world) :
  final (LogOpen w) =
    if g_log_fp (w_g w) then w
    else if can_open (w_os w) (g_log_file (w_g w))
         then logged LogHeader (log_opened w)
         else w.
Proof.
  unfold LogOpen. rewrite final_bind. cbv beta.
  change (result (get w)) with w. change (final (get w)) with w.
  destruct (g_log_fp (w_g w)); [reflexivity |].
  destruct (can_open (w_os w) (g_log_file (w_g w))); reflexivity.
Qed.

Lemma LogOpen_view (w : world) :
  let can := can_open (w_os w) (g_log_file (w_g w)) in
  log_out (w_os (final (LogOpen w))) =
    log_out (w_os w) ++ (if negb (g_log_fp (w_g w)) && can then [LogHeader] else []) /\
  g_log_fp (w_g (final (LogOpen w))) = g_log_fp (w_g w) || can /\
  g_data_dir (w_g (final (LogOpen w))) = g_data_dir (w_g w) /\
  g_flight_loop_id (w_g (final (LogOpen w))) = g_flight_loop_id (w_g w) /\
  w_sim (final (LogOpen w)) = w_sim w /\
  (forall p, p <> g_log_file (w_g w) ->
             files (w_os (final (LogOpen w))) !! p = files (w_os w) !! p).
Proof.
  intros can. subst can. rewrite LogOpen_final.
  destruct (g_log_fp (w_g w)) eqn:Hfp.
  - cbn [negb andb orb]. rewrite app_nil_r, Hfp. repeat split; reflexivity.
  - destruct (can_open (w_os w) (g_log_file (w_g w))).
    + destruct (logged_frame LogHeader (log_opened w))
        as (Hs & Hg & _ & _ & _ & Hl & Hf & _).
      rewrite Hs, Hg, Hl. cbn [negb andb orb].
      repeat split; try reflexivity.
      intros p Hp. rewrite Hf by exact Hp.
      unfold log_opened. cbn [with_g with_os w_os set_files files].
      rewrite lookup_insert_ne by congruence. reflexivity.
    + cbn [negb andb orb]. rewrite app_nil_r, Hfp. repeat split; reflexivity.
Qed.

(** X6: opening the log is guarded: a second [LogOpen] changes nothing, so
    a session header is written once, and only by the call that opens the
    stream; when the file cannot be opened the stream stays closed and
    nothing is written. *)
Theorem LogOpen_is_idempotent (w : world) :
  final (LogOpen (final (LogOpen w))) = final (LogOpen w) /\
  log_out (w_os (final (LogOpen w))) =
    log_out (w_os w) ++
    (if negb (g_log_fp (w_g w)) && can_open (w_os w) (g_log_file (w_g w))
     then [LogHeader] else []) /\
  g_log_fp (w_g (final (LogOpen w))) =
    g_log_fp (w_g w) || can_open (w_os w) (g_log_file (w_g w)).
Proof.
  destruct (LogOpen_view w) as (Hl & Hf & _). cbv zeta in Hl, Hf.
  split; [| split; assumption].
  rewrite (LogOpen_final (final (LogOpen w))), (LogOpen_final w).
  destruct (g_log_fp (w_g w)) eqn:Hfp; [rewrite Hfp; reflexivity |].
  destruct (can_open (w_os w) (g_log_file (w_g w))) eqn:Hc.
  - reflexivity.
  - rewrite Hfp, Hc. reflexivity.
Qed.

Lemma LogClose_final (w : world) :
  final (LogClose w) =
    if g_log_fp (w_g w) then with_g (set_log_fp false) (logged LogFooter w) else w.
Proof.
  unfold LogClose. rewrite final_bind. cbv beta.
  change (result (get w)) with w. change (final (get w)) with w.
  destruct (g_log_fp (w_g w)); reflexivity.
Qed.

Lemma start_final (w : world) :
  let w1 := final (InitFilePaths w) in
  let w2 := final (LogOpen w1) in
  let w3 := final (Log "INFO" ("Plugin starting (version " +:+ PLUGIN_VERSION +:+ ")") w2) in
  let w4 := final (Log "INFO" ("Data directory: " +:+ g_data_dir (w_g w3)) w3) in
  let w5 := final (InitDataRefs w4) in
  let w6 := with_g (set_flight_loop_id (Some (next_loop (w_sim w5))))
                   (final (XPLMCreateFlightLoop w5)) in
  final (XPluginStart w) = final (Log "INFO" "Plugin started successfully" w6).
Proof.
  cbv zeta. unfold XPluginStart.
  repeat (rewrite final_bind; cbv beta).
  rewrite final_ret. reflexivity.
Qed.

Lemma InitDataRefs_view (w : world) :
  log_out (w_os (final (InitDataRefs w))) =
    log_out (w_os w) ++
    (if g_log_fp (w_g w) then [LogLine "INFO" "DataRefs initialized"] else []) /\
  g_log_fp (w_g (final (InitDataRefs w))) = g_log_fp (w_g w) /\
  g_data_dir (w_g (final (InitDataRefs w))) = g_data_dir (w_g w).
Proof.
  unfold InitDataRefs. rewrite !final_bind. cbv beta.
  change (result (get w)) with w. change (final (get w)) with w.
  set (w1 := final (modify _ w)).
  destruct (Log_view "INFO" "DataRefs initialized" w1) as (Hl & Hg & _).
  unfold LOG_INFO. rewrite Hl, Hg. repeat split; reflexivity.
Qed.

(** X7: what [XPluginStart] writes to the log.  When the stream was closed
    and the log file can be opened: a session header, then the four lines
    of a start, the second naming the data directory just computed.  When
    the stream was already open (a second start): the four lines and no
    second header.  When the file cannot be opened: nothing, and the stream
    stays closed. *)
Theorem XPluginStart_log_transcript (w : world) :
  let g1 := w_g (final (InitFilePaths w)) in
  let can := can_open (w_os w) (g_log_file g1) in
  log_out (w_os (final (XPluginStart w))) =
    log_out (w_os w) ++ start_lines (g_log_fp (w_g w)) can (g_data_dir g1) /\
  g_log_fp (w_g (final (XPluginStart w))) = g_log_fp (w_g w) || can.
Proof.
  intros g1 can. subst g1 can.
  pose proof (start_final w) as Hf. cbv zeta in Hf. rewrite Hf. clear Hf.
  set (w1 := final (InitFilePaths w)).
  assert (log_out (w_os w1) = log_out (w_os w) /\ g_log_fp (w_g w1) = g_log_fp (w_g w)
          /\ can_open (w_os w1) = can_open (w_os w)) as (Hl1 & Hf1 & Hc1)
    by (repeat split; reflexivity).
  destruct (LogOpen_view w1) as (Hl2 & Hf2 & Hd2 & _). cbv zeta in Hl2, Hf2.
  set (w2 := final (LogOpen w1)) in *.
  destruct (Log_view "INFO" ("Plugin starting (version " +:+ PLUGIN_VERSION +:+ ")") w2)
    as (Hl3 & Hg3 & _).
  set (w3 := final (Log "INFO" _ w2)) in *.
  destruct (Log_view "INFO" ("Data directory: " +:+ g_data_dir (w_g w3)) w3)
    as (Hl4 & Hg4 & _).
  set (w4 := final (Log "INFO" _ w3)) in *.
  destruct (InitDataRefs_view w4) as (Hl5 & Hf5 & _).
  set (w5 := final (InitDataRefs w4)) in *.
  set (w6 := with_g _ (final (XPLMCreateFlightLoop w5))).
  assert (log_out (w_os w6) = log_out (w_os w5) /\ g_log_fp (w_g w6) = g_log_fp (w_g w5))
    as (Hl6 & Hf6) by (split; reflexivity).
  destruct (Log_view "INFO" "Plugin started successfully" w6) as (Hl7 & Hg7 & _).
  clearbody w6 w5 w4 w3 w2.
  rewrite Hl7, Hg7, Hl6, Hf6, Hl5, Hf5, Hl4, Hg4, Hl3, Hg3, Hd2, Hl2, Hf2, Hl1, Hf1, Hc1.
  unfold start_lines.
  destruct (g_log_fp (w_g w)), (can_open (w_os w) (g_log_file (w_g w1)));
    cbn [negb andb orb app]; rewrite <- ?app_assoc; split; reflexivity.
Qed.

Lemma stop_log_view (w : world) :
  log_out (w_os (final (XPluginStop w))) =
    log_out (w_os w) ++
    (if g_log_fp (w_g w) then [LogLine "INFO" "Plugin stopped"; LogFooter] else []) /\
  g_log_fp (w_g (final (XPluginStop w))) = false.
Proof.
  unfold XPluginStop. repeat (rewrite final_bind; cbv beta).
  change (result (get (final (enter RXPluginStop w)))) with w.
  change (final (get (final (enter RXPluginStop w)))) with w.
  unfold LOG_INFO.
  match goal with |- context [Log "INFO" "Plugin stopped" ?x] => set (w1 := x) end.
  assert (log_out (w_os w1) = log_out (w_os w) /\ g_log_fp (w_g w1) = g_log_fp (w_g w))
    as (Hl1 & Hf1).
  { subst w1. destruct (g_flight_loop_id (w_g w)); split; reflexivity. }
  destruct (Log_view "INFO" "Plugin stopped" w1) as (Hl2 & Hg2 & _).
  set (w2 := final (Log "INFO" "Plugin stopped" w1)) in *.
  rewrite (LogClose_final w2). clearbody w2 w1.
  rewrite Hf1 in Hl2. rewrite Hg2, Hf1.
  destruct (g_log_fp (w_g w)) eqn:Hfp.
  - destruct (logged_frame LogFooter w2) as (_ & _ & _ & _ & _ & Hl3 & _).
    cbn [with_g w_os w_g set_log_fp g_log_fp].
    rewrite Hl3, Hl2, Hl1, <- app_assoc. split; reflexivity.
  - rewrite Hl2, Hl1, Hg2, Hf1, app_nil_r. split; reflexivity.
Qed.

(** X8: [XPluginStop] closes the log whatever its state: an open stream
    gets the line of the stop and the session footer, a closed one gets
    nothing, and the stream is closed afterwards either way. *)
Theorem XPluginStop_closes_log (w : world) :
  log_out (w_os (final (XPluginStop w))) =
    log_out (w_os w) ++
    (if g_log_fp (w_g w) then [LogLine "INFO" "Plugin stopped"; LogFooter] else []) /\
  g_log_fp (w_g (final (XPluginStop w))) = false.
Proof. exact (stop_log_view w). Qed.

(** ** Registration and scheduling of the flight loop *)

Lemma schedule_view (id : nat) (t : float) (w : world) :
  g_flight_loop_id (w_g w) = Some id ->
  host_view (final (XPLMScheduleFlightLoop id t w)) = scheduled_view t (host_view w).
Proof.
  intros H. unfold host_view, scheduled_view. cbn [fst snd]. rewrite H.
  unfold XPLMScheduleFlightLoop, emit, final, with_sim. cbn [fst snd w_sim w_g].
  rewrite H. destruct (loops (w_sim w) !! id); reflexivity.
Qed.

Lemma acts_XPluginEnable : acts_as XPluginEnable (scheduled_view 1%float).
Proof.
  intros w. destruct (g_flight_loop_id (w_g w)) as [id|] eqn:H.
  - destruct (enable_with_handle w id H) as [Hf _]. cbv zeta in Hf. rewrite Hf.
    rewrite acts_Log. apply schedule_view. exact H.
  - destruct (enable_without_handle w H) as [Hf _]. cbv zeta in Hf. rewrite Hf.
    rewrite acts_Log. unfold host_view, scheduled_view. cbn [fst snd]. rewrite H.
    reflexivity.
Qed.

Lemma disable_final (w : world) :
  final (XPluginDisable w) =
    final (Log "INFO" "Plugin disabled - telemetry streaming stopped"
             match g_flight_loop_id (w_g w) with
             | Some id => final (XPLMScheduleFlightLoop id 0%float w)
             | None => w
             end).
Proof.
  unfold XPluginDisable. repeat (rewrite final_bind; cbv beta).
  change (result (get (final (enter RXPluginDisable w)))) with w.
  change (final (get (final (enter RXPluginDisable w)))) with w.
  unfold LOG_INFO. destruct (g_flight_loop_id (w_g w)); reflexivity.
Qed.

Lemma acts_XPluginDisable : acts_as XPluginDisable (scheduled_view 0%float).
Proof.
  intros w. rewrite disable_final, acts_Log.
  destruct (g_flight_loop_id (w_g w)) as [id|] eqn:H.
  - apply schedule_view. exact H.
  - unfold host_view, scheduled_view. cbn [fst snd]. rewrite H. reflexivity.
Qed.

Lemma scheduled_twice (t t' : float) (v : simulator * option nat) :
  scheduled_view t (scheduled_view t' v) = scheduled_view t v.
Proof.
  destruct v as [s [id|]]; unfold scheduled_view; cbn [fst snd]; [| reflexivity].
  destruct (loops s !! id) as [t0|] eqn:H.
  - cbn [loops set_loops next_loop]. rewrite lookup_insert_eq, insert_insert_eq.
    reflexivity.
  - rewrite H. reflexivity.
Qed.

Lemma start_result (w : world) :
  result (XPluginStart w) = (PLUGIN_NAME, PLUGIN_SIG, PLUGIN_DESC, 1%Z).
Proof.
  unfold XPluginStart. repeat (rewrite result_bind; cbv beta). reflexivity.
Qed.

(** X9: [XPluginStart] always reports success with the plugin's name,
    signature and description, and registers exactly one new flight loop:
    the host's table gains the next identifier, not yet scheduled (interval
    0), every other registration stays as it was, and the handle names the
    new one. *)
Theorem XPluginStart_registers_one_unscheduled_loop (w : world) :
  result (XPluginStart w) = (PLUGIN_NAME, PLUGIN_SIG, PLUGIN_DESC, 1%Z) /\
  g_flight_loop_id (w_g (final (XPluginStart w))) = Some (next_loop (w_sim w)) /\
  loops (w_sim (final (XPluginStart w))) =
    <[next_loop (w_sim w) := 0%float]> (loops (w_sim w)) /\
  next_loop (w_sim (final (XPluginStart w))) = S (next_loop (w_sim w)).
Proof.
  split; [apply start_result |].
  destruct (start_view w) as [Hs Hg]. revert Hs Hg.
  generalize (final (XPluginStart w)). intros w1 Hs Hg.
  rewrite Hs, Hg. repeat split; reflexivity.
Qed.

(** X10: [XPluginStop] destroys the registration behind the handle and no
    other, clears the handle, and is idempotent towards the host: a second
    stop finds no handle and destroys nothing. *)
Theorem XPluginStop_destroys_only_its_registration (w : world) :
  loops (w_sim (final (XPluginStop w))) =
    match g_flight_loop_id (w_g w) with
    | Some id => delete id (loops (w_sim w))
    | None => loops (w_sim w)
    end /\
  g_flight_loop_id (w_g (final (XPluginStop w))) = None /\
  host_view (final (XPluginStop (final (XPluginStop w)))) =
    host_view (final (XPluginStop w)).
Proof.
  destruct (stop_view w) as [Hs Hg].
  pose proof (acts_XPluginStop (final (XPluginStop w))) as H2.
  revert Hs Hg H2.
  generalize (final (XPluginStop (final (XPluginStop w)))).
  generalize (final (XPluginStop w)). intros w1 w2 Hs Hg H2.
  split; [| split; [exact Hg |]].
  - rewrite Hs. destruct (g_flight_loop_id (w_g w)); reflexivity.
  - rewrite H2. unfold stopped_view, host_view. cbn [fst snd]. rewrite Hg. reflexivity.
Qed.

(** X11: enabling and disabling only ever reschedule: neither creates nor
    destroys a registration, neither moves the handle, and the later call
    decides the interval: enable after anything leaves what enable alone
    leaves, disable after anything what disable alone leaves. *)
Theorem enable_disable_only_reschedule (w : world) :
  dom (loops (w_sim (final (XPluginEnable w)))) = dom (loops (w_sim w)) /\
  dom (loops (w_sim (final (XPluginDisable w)))) = dom (loops (w_sim w)) /\
  g_flight_loop_id (w_g (final (XPluginEnable w))) = g_flight_loop_id (w_g w) /\
  g_flight_loop_id (w_g (final (XPluginDisable w))) = g_flight_loop_id (w_g w) /\
  host_view (final (XPluginEnable (final (XPluginEnable w))))
    = host_view (final (XPluginEnable w)) /\
  host_view (final (XPluginDisable (final (XPluginEnable w))))
    = host_view (final (XPluginDisable w)) /\
  host_view (final (XPluginEnable (final (XPluginDisable w))))
    = host_view (final (XPluginEnable w)).
Proof.
  assert (forall t v, dom (loops (scheduled_view t v).1) = dom (loops v.1) /\
                      (scheduled_view t v).2 = v.2) as Hdom.
  { intros t [s [id|]]; unfold scheduled_view; cbn [fst snd]; [| split; reflexivity].
    destruct (loops s !! id) as [t0|] eqn:H; [| split; reflexivity].
    cbn [loops set_loops]. split; [| reflexivity].
    rewrite dom_insert_L.
    assert (id ∈ dom (loops s)) as Hin by (apply elem_of_dom; eauto).
    apply subseteq_union_1_L, singleton_subseteq_l, Hin. }
  pose proof (acts_XPluginEnable w) as He.
  pose proof (acts_XPluginDisable w) as Hd.
  pose proof (acts_XPluginEnable (final (XPluginEnable w))) as Hee.
  pose proof (acts_XPluginDisable (final (XPluginEnable w))) as Hde.
  pose proof (acts_XPluginEnable (final (XPluginDisable w))) as Hed.
  rewrite He in Hee, Hde. rewrite Hd in Hed. rewrite scheduled_twice in Hee, Hde, Hed.
  rewrite Hee, Hde, Hed, He, Hd.
  destruct (host_view_inv _ _ He) as [Hes Heg].
  destruct (host_view_inv _ _ Hd) as [Hds Hdg].
  rewrite Hes, Heg, Hds, Hdg.
  destruct (Hdom 1%float (host_view w)) as [H1 H2].
  destruct (Hdom 0%float (host_view w)) as [H3 H4].
  repeat split; assumption.
Qed.

Lemma disable_undoes_enable_after_start_view (w : world) :
  host_view (final (XPluginDisable (final (XPluginEnable (final (XPluginStart w)))))) =
    started_view (host_view w).
Proof.
  rewrite acts_XPluginDisable, acts_XPluginEnable, scheduled_twice, acts_XPluginStart.
  generalize (host_view w). intros [s h].
  unfold scheduled_view, started_view. cbn [fst snd loops set_loops next_loop].
  rewrite lookup_insert_eq, insert_insert_eq. reflexivity.
Qed.

(** X12: after [XPluginStart], enabling and then disabling puts the host
    back where the start left it: the registration is there, unscheduled. *)
Theorem disable_undoes_enable_after_start (w : world) :
  host_view (final (XPluginDisable (final (XPluginEnable (final (XPluginStart w)))))) =
    host_view (final (XPluginStart w)).
Proof.
  rewrite disable_undoes_enable_after_start_view, acts_XPluginStart. reflexivity.
Qed.

Lemma disable_without_handle (w : world) :
  g_flight_loop_id (w_g w) = None -> g_log_fp (w_g w) = false ->
  final (XPluginDisable w) = w /\ events (XPluginDisable w) = [Call RXPluginDisable].
Proof.
  intros H Hl. split.
  - rewrite disable_final, H, (Log_closed _ _ _ Hl). reflexivity.
  - unfold events, XPluginDisable. repeat (rewrite trace_bind; cbv beta).
    change (result (get (final (enter RXPluginDisable w)))) with w.
    change (final (get (final (enter RXPluginDisable w)))) with w.
    rewrite H. unfold LOG_INFO. rewrite final_ret, (Log_closed _ _ _ Hl). reflexivity.
Qed.

(** X13: once [XPluginStop] has run, [XPluginEnable] and [XPluginDisable]
    do nothing at all: they make no call to the host, so the destroyed
    handle is never used again, they write no log line, and they leave the
    world as the stop left it. *)
Theorem enable_disable_after_stop_do_nothing (w : world) :
  events (XPluginEnable (final (XPluginStop w))) = [Call RXPluginEnable] /\
  final (XPluginEnable (final (XPluginStop w))) = final (XPluginStop w) /\
  events (XPluginDisable (final (XPluginStop w))) = [Call RXPluginDisable] /\
  final (XPluginDisable (final (XPluginStop w))) = final (XPluginStop w).
Proof.
  destruct (stop_view w) as [_ Hg].
  destruct (stop_log_view w) as [_ Hl].
  revert Hg Hl. generalize (final (XPluginStop w)). intros w1 Hg Hl.
  destruct (enable_without_handle w1 Hg) as [Hf Ht]. cbv zeta in Hf, Ht.
  destruct (disable_without_handle w1 Hg Hl) as [Hdf Hdt].
  unfold events in *. rewrite Hf, Ht, (Log_closed _ _ _ Hl).
  repeat split; assumption || reflexivity.
Qed.

(** X14: a whole session leaves nothing behind at the host: after start,
    enable, disable and stop, the table of registrations is what it was
    before the start and the handle is cleared. *)
Theorem session_leaves_no_registration (w : world) :
  host_fresh (w_sim w) ->
  loops (w_sim (final (XPluginStop (final (XPluginDisable
           (final (XPluginEnable (final (XPluginStart w)))))))))
    = loops (w_sim w) /\
  g_flight_loop_id (w_g (final (XPluginStop (final (XPluginDisable
           (final (XPluginEnable (final (XPluginStart w))))))))) = None.
Proof.
  intros Hfresh.
  assert (loops (w_sim w) !! next_loop (w_sim w) = None) as Hn
    by (apply Hfresh; lia).
  pose proof (acts_XPluginStop (final (XPluginDisable
                (final (XPluginEnable (final (XPluginStart w))))))) as H.
  rewrite disable_undoes_enable_after_start_view in H.
  destruct (host_view_inv _ _ H) as [Hs Hg]. rewrite Hs, Hg.
  unfold stopped_view, started_view, host_view.
  cbn [fst snd loops set_loops next_loop].
  rewrite delete_insert_id by exact Hn. split; reflexivity.
Qed.

(** ** What a publish and a tick leave alone *)

Section Frames.

Variable printf_f : nat -> float -> string.

Lemma Log_reads_only (level msg : string) (w : world) :
  reads_only w (final (Log level msg w)).
Proof.
  unfold reads_only. destruct (g_log_fp (w_g w)) eqn:H.
  - rewrite (Log_open _ _ _ H). repeat split; reflexivity.
  - rewrite (Log_closed _ _ _ H). repeat split; reflexivity.
Qed.

Lemma rename_files (src dst : string) (w : world) :
  reads_only w (final (rename src dst w)) /\
  log_out (w_os (final (rename src dst w))) = log_out (w_os w) /\
  forall p, p <> src -> p <> dst ->
            files (w_os (final (rename src dst w))) !! p = files (w_os w) !! p.
Proof.
  unfold rename, reads_only. destruct (files (w_os w) !! src) as [c|].
  - cbn [final fst snd with_os w_os w_sim w_g set_files files can_open clock home log_out].
    repeat split; try reflexivity.
    intros p H1 H2. rewrite lookup_insert_ne by congruence.
    rewrite lookup_delete_ne by congruence. reflexivity.
  - repeat split; reflexivity.
Qed.

(** A publish, successful or not, reads the simulator and the globals and
    writes two files and the log at most. *)
Lemma publish_frame (w : world) :
  let w' := final (WriteTelemetryJSON printf_f w) in
  reads_only w w' /\
  log_out (w_os w') =
    log_out (w_os w) ++
    (if negb (can_open (w_os w) (tmp_file_of w)) && g_log_fp (w_g w)
     then [LogLine "ERROR" ("Failed to open temp file for writing: " +:+ tmp_file_of w)]
     else []) /\
  forall p, p <> tmp_file_of w -> p <> g_input_file (w_g w) -> p <> g_log_file (w_g w) ->
            files (w_os w') !! p = files (w_os w) !! p.
Proof.
  intros w'. subst w'. destruct (can_open (w_os w) (tmp_file_of w)) eqn:Hopen.
  - destruct (publish_opened printf_f w Hopen) as [Hf _]. cbv zeta in Hf. rewrite Hf.
    destruct (written_touches printf_f w) as [(Hs & Hg & Hc & Hk & Hh & Hl & Hfs) _].
    revert Hs Hg Hc Hk Hh Hl Hfs.
    generalize (final (written printf_f w (opened w))). intros wf Hs Hg Hc Hk Hh Hl Hfs.
    destruct (rename_files (tmp_file_of w) (g_input_file (w_g w)) wf)
      as ((Rs & Rg & Rc & Rk & Rh) & Rl & Rf).
    cbn [negb andb]. rewrite app_nil_r.
    split; [unfold reads_only; repeat split; congruence |].
    split; [congruence |].
    intros p H1 H2 _. rewrite Rf by assumption. apply Hfs. assumption.
  - destruct (publish_denied printf_f w Hopen) as [Hf _]. cbv zeta in Hf. rewrite Hf.
    unfold LOG_ERROR.
    destruct (Log_view "ERROR"
                ("Failed to open temp file for writing: " +:+ tmp_file_of w) w)
      as (Hl & _ & _ & _ & Hfs).
    split; [apply Log_reads_only |].
    split; [exact Hl |].
    intros p _ _ Hp. apply Hfs. exact Hp.
Qed.

Lemma tick_final (w : world) :
  final (FlightLoopCallback printf_f w) = final (WriteTelemetryJSON printf_f w).
Proof.
  unfold FlightLoopCallback. generalize (WriteTelemetryJSON printf_f). intros m.
  repeat (rewrite final_bind; cbv beta). reflexivity.
Qed.

(** X15: a tick only reads the simulator: whatever happens to the publish,
    the simulator (values, aircraft, registrations), every global of the
    plugin, the clock, the environment and the answers of the file system
    are after the tick what they were before. *)
Theorem tick_only_reads_simulator_and_globals (w : world) :
  w_sim (final (FlightLoopCallback printf_f w)) = w_sim w /\
  w_g (final (FlightLoopCallback printf_f w)) = w_g w /\
  can_open (w_os (final (FlightLoopCallback printf_f w))) = can_open (w_os w) /\
  clock (w_os (final (FlightLoopCallback printf_f w))) = clock (w_os w) /\
  home (w_os (final (FlightLoopCallback printf_f w))) = home (w_os w).
Proof.
  rewrite tick_final. destruct (publish_frame w) as [H _]. exact H.
Qed.

(** X16: a tick writes three files at most, the snapshot, its side file
    and the plugin's own log file: every other path holds after the tick
    what it held before, whether the publish went through or not. *)
Theorem tick_writes_three_files_at_most (w : world) (p : string) :
  p <> tmp_file_of w ->
  p <> g_input_file (w_g w) ->
  p <> g_log_file (w_g w) ->
  files (w_os (final (FlightLoopCallback printf_f w))) !! p = files (w_os w) !! p.
Proof.
  intros H1 H2 H3. rewrite tick_final.
  destruct (publish_frame w) as (_ & _ & H). apply H; assumption.
Qed.

(** X17: the log lines of the callbacks that run between start and stop:
    enabling and disabling write their one line when the stream is open,
    and a tick writes one ERROR line, naming the side file, exactly when
    the side file could not be opened and the stream is open; otherwise they
    write nothing, and no earlier line is ever lost. *)
Theorem callbacks_log_transcript (w : world) :
  log_out (w_os (final (XPluginEnable w))) =
    log_out (w_os w) ++
    (if g_log_fp (w_g w)
     then [LogLine "INFO" "Plugin enabled - telemetry streaming started"] else []) /\
  log_out (w_os (final (XPluginDisable w))) =
    log_out (w_os w) ++
    (if g_log_fp (w_g w)
     then [LogLine "INFO" "Plugin disabled - telemetry streaming stopped"] else []) /\
  log_out (w_os (final (FlightLoopCallback printf_f w))) =
    log_out (w_os w) ++
    (if negb (can_open (w_os w) (tmp_file_of w)) && g_log_fp (w_g w)
     then [LogLine "ERROR" ("Failed to open temp file for writing: " +:+ tmp_file_of w)]
     else []).
Proof.
  split; [| split].
  - destruct (g_flight_loop_id (w_g w)) as [id|] eqn:H.
    + destruct (enable_with_handle w id H) as [Hf _]. cbv zeta in Hf. rewrite Hf.
      destruct (Log_view "INFO" "Plugin enabled - telemetry streaming started"
                  (final (XPLMScheduleFlightLoop id 1%float w))) as (Hl & _).
      rewrite Hl. reflexivity.
    + destruct (enable_without_handle w H) as [Hf _]. cbv zeta in Hf. rewrite Hf.
      destruct (Log_view "INFO" "Plugin enabled - telemetry streaming started" w)
        as (Hl & _).
      exact Hl.
  - rewrite disable_final.
    destruct (g_flight_loop_id (w_g w)) as [id|].
    + destruct (Log_view "INFO" "Plugin disabled - telemetry streaming stopped"
                  (final (XPLMScheduleFlightLoop id 0%float w))) as (Hl & _).
      rewrite Hl. reflexivity.
    + destruct (Log_view "INFO" "Plugin disabled - telemetry streaming stopped" w)
        as (Hl & _).
      exact Hl.
  - rewrite tick_final. destruct (publish_frame w) as (_ & H & _). exact H.
Qed.

(** X18: a publish whose side file opens ends with the side file gone, the
    publication path holding what the disk took of the document (the whole
    document when there was room, else its first bytes), and every other
    file as it was; what the files held before, a stale side file included,
    has no part in what is published. *)
Theorem publish_replaces_publication_path_only (w : world) :
  can_open (w_os w) (tmp_file_of w) = true ->
  String.length (g_input_file (w_g w)) <= 1019 ->
  files (w_os (final (WriteTelemetryJSON printf_f w))) !! g_input_file (w_g w) =
    Some (stored_of (quota (w_os w))
            (Libc.cat (telemetry_lines printf_f (read_telemetry w)))) /\
  files (w_os (final (WriteTelemetryJSON printf_f w))) !! tmp_file_of w = None /\
  (forall p, p <> tmp_file_of w -> p <> g_input_file (w_g w) ->
     files (w_os (final (WriteTelemetryJSON printf_f w))) !! p = files (w_os w) !! p).
Proof.
  intros Hopen Hlen.
  destruct (publish_final printf_f w Hopen Hlen) as (H1 & H2 & H3 & _).
  repeat split; assumption.
Qed.

(** X19: during a publish whose side file opens, the publication path
    changes at most once, at the rename: at every instant it holds what it
    held before or what it holds in the end. *)
Theorem publication_path_changes_once (w : world) :
  can_open (w_os w) (tmp_file_of w) = true ->
  String.length (g_input_file (w_g w)) <= 1019 ->
  Forall (fun ew =>
            files (w_os ew.2) !! g_input_file (w_g w) =
              files (w_os w) !! g_input_file (w_g w) \/
            files (w_os ew.2) !! g_input_file (w_g w) =
              files (w_os (final (WriteTelemetryJSON printf_f w)))
                !! g_input_file (w_g w))
         (trace (WriteTelemetryJSON printf_f w)).
Proof.
  intros Hopen Hlen.
  destruct (publish_final printf_f w Hopen Hlen) as (H1 & _).
  rewrite H1. apply publish_instants; assumption.
Qed.

End Frames.

(** ** The command log during a session *)

Lemma start_paths (w : world) :
  g_input_file (w_g (final (XPluginStart w)))
    = g_input_file (w_g (final (InitFilePaths w))) /\
  g_output_file (w_g (final (XPluginStart w)))
    = g_output_file (w_g (final (InitFilePaths w))) /\
  g_log_file (w_g (final (XPluginStart w)))
    = g_log_file (w_g (final (InitFilePaths w))) /\
  forall p, p <> g_log_file (w_g (final (InitFilePaths w))) ->
            files (w_os (final (XPluginStart w))) !! p = files (w_os w) !! p.
Proof.
  pose proof (start_final w) as Hf. cbv zeta in Hf. rewrite Hf. clear Hf.
  set (w1 := final (InitFilePaths w)).
  assert (files (w_os w1) = files (w_os w)) as F1 by reflexivity.
  assert (g_input_file (w_g (final (LogOpen w1))) = g_input_file (w_g w1) /\
          g_output_file (w_g (final (LogOpen w1))) = g_output_file (w_g w1) /\
          g_log_file (w_g (final (LogOpen w1))) = g_log_file (w_g w1)) as (I2 & O2 & L2).
  { rewrite LogOpen_final. destruct (g_log_fp (w_g w1)); [repeat split; reflexivity |].
    destruct (can_open (w_os w1) (g_log_file (w_g w1))); repeat split; reflexivity. }
  destruct (LogOpen_view w1) as (_ & _ & _ & _ & _ & F2).
  set (w2 := final (LogOpen w1)) in *.
  destruct (Log_view "INFO" ("Plugin starting (version " +:+ PLUGIN_VERSION +:+ ")") w2)
    as (_ & G3 & _ & _ & F3).
  set (w3 := final (Log "INFO" _ w2)) in *.
  destruct (Log_view "INFO" ("Data directory: " +:+ g_data_dir (w_g w3)) w3)
    as (_ & G4 & _ & _ & F4).
  set (w4 := final (Log "INFO" _ w3)) in *.
  assert (w_g (final (InitDataRefs w4)) = set_dr (dr (w_g (final (InitDataRefs w4)))) (w_g w4) /\
          forall p, p <> g_log_file (w_g w4) ->
                    files (w_os (final (InitDataRefs w4))) !! p = files (w_os w4) !! p)
    as (G5 & F5).
  { unfold InitDataRefs. rewrite !final_bind. cbv beta.
    change (result (get w4)) with w4. change (final (get w4)) with w4.
    set (wm := final (modify _ w4)).
    destruct (Log_view "INFO" "DataRefs initialized" wm) as (_ & Gm & _ & _ & Fm).
    unfold LOG_INFO. rewrite Gm. split; [reflexivity |].
    intros p Hp. rewrite Fm by exact Hp. reflexivity. }
  set (w5 := final (InitDataRefs w4)) in *.
  set (w6 := with_g _ (final (XPLMCreateFlightLoop w5))).
  assert (g_input_file (w_g w6) = g_input_file (w_g w5) /\
          g_output_file (w_g w6) = g_output_file (w_g w5) /\
          g_log_file (w_g w6) = g_log_file (w_g w5) /\
          files (w_os w6) = files (w_os w5)) as (I6 & O6 & L6 & F6)
    by (repeat split; reflexivity).
  destruct (Log_view "INFO" "Plugin started successfully" w6) as (_ & G7 & _ & _ & F7).
  clearbody w6 w5 w4 w3 w2.
  assert (g_log_file (w_g w5) = g_log_file (w_g w1)) as L5
    by (rewrite G5; cbn [set_dr g_log_file]; rewrite G4, G3; exact L2).
  rewrite G7, I6, O6, L6, G5. cbn [set_dr g_input_file g_output_file g_log_file].
  rewrite G4, G3, I2, O2, L2.
  repeat split; try reflexivity.
  intros p Hp.
  rewrite F7 by (rewrite L6, L5; exact Hp).
  rewrite F6, F5 by (rewrite G4, G3, L2; exact Hp).
  rewrite F4 by (rewrite G3, L2; exact Hp).
  rewrite F3 by (rewrite L2; exact Hp).
  rewrite F2 by exact Hp. rewrite F1. reflexivity.
Qed.

(** X20: a session never writes the command log: [XPluginStart] creates or
    changes no file but the plugin's own log file, so the command log is
    after the start what the client wrote before it, and a tick of the
    started plugin, whatever happens to its publish, leaves it so. *)
Theorem session_never_writes_command_log
    (printf_f : nat -> float -> string) (w : world) :
  (forall p, p <> g_log_file (w_g (final (XPluginStart w))) ->
             files (w_os (final (XPluginStart w))) !! p = files (w_os w) !! p) /\
  command_log (final (XPluginStart w))
    = default "" (files (w_os w) !! g_output_file (w_g (final (XPluginStart w)))) /\
  command_log (final (FlightLoopCallback printf_f (final (XPluginStart w))))
    = command_log (final (XPluginStart w)).
Proof.
  destruct (start_paths w) as (Hi & Ho & Hl & Hf).
  pose proof (paths_after_init w) as HP. cbv zeta in HP.
  destruct HP as (Pi & Po & Pl & Pt).
  assert (tmp_file_of (final (XPluginStart w)) = tmp_file_of (final (InitFilePaths w)))
    as Ht by (unfold tmp_file_of; rewrite Hi; reflexivity).
  rewrite <- Ht in Pt. rewrite <- Hi in Pi. rewrite <- Ho in Po. rewrite <- Hl in Pl, Hf.
  revert Pi Po Pl Pt Hf. generalize (g_data_dir (w_g (final (InitFilePaths w)))).
  clear Hi Ho Hl Ht. generalize (final (XPluginStart w)). intros ws d Pi Po Pl Pt Hf.
  assert (g_output_file (w_g ws) <> g_log_file (w_g ws)) as Hol.
  { rewrite Po, Pl. intros E. apply (String.app_inj d) in E. discriminate E. }
  split; [exact Hf |].
  split; [unfold command_log; rewrite Hf by exact Hol; reflexivity |].
  unfold command_log. rewrite tick_final.
  destruct (publish_frame printf_f ws) as ((_ & Hg & _) & _ & Hfs).
  rewrite Hg. rewrite Hfs; [reflexivity | | | exact Hol].
  - rewrite Po, Pt. intros E. apply (String.app_inj d) in E. discriminate E.
  - rewrite Po, Pi. intros E. apply (String.app_inj d) in E. discriminate E.
Qed.

(** ** The further properties at concrete worlds *)

Lemma sampled_field_shows_its_dataref_witness :
  sim_has (w_sim w_init) (dataref_path dr_on_ground) = true /\
  doc_lookup (snapshot_document (read_telemetry (final (InitDataRefs w_init))))
             "state" "on_ground" = Some (LBool true).
Proof.
  split; [reflexivity |].
  exact (sampled_field_shows_its_dataref w_init dr_on_ground eq_refl).
Defined.

Lemma unknown_dataref_samples_default_witness :
  sim_has (w_sim w_init) (dataref_path dr_xpdr_mode) = false /\
  (dr (w_g (final (InitDataRefs w_init))) dr_xpdr_mode = None /\
   doc_lookup (snapshot_document (read_telemetry (final (InitDataRefs w_init))))
              "transponder" "mode" = Some (LInt 0) /\
   w_sim (final (InitDataRefs w_init)) = w_sim w_init).
Proof.
  split; [reflexivity |].
  exact (unknown_dataref_samples_default w_init dr_xpdr_mode eq_refl).
Defined.

Lemma session_leaves_no_registration_witness :
  host_fresh (w_sim w_init) /\
  (loops (w_sim (final (XPluginStop (final (XPluginDisable
            (final (XPluginEnable (final (XPluginStart w_init)))))))))
     = loops (w_sim w_init) /\
   g_flight_loop_id (w_g (final (XPluginStop (final (XPluginDisable
            (final (XPluginEnable (final (XPluginStart w_init))))))))) = None).
Proof.
  assert (host_fresh (w_sim w_init)) as H by (intros id _; reflexivity).
  split; [exact H |].
  exact (session_leaves_no_registration w_init H).
Defined.

Lemma tick_writes_three_files_at_most_witness :
  g_output_file (w_g w_unwritable) <> tmp_file_of (client_append set_com1_record w_unwritable) /\
  g_output_file (w_g w_unwritable)
    <> g_input_file (w_g (client_append set_com1_record w_unwritable)) /\
  g_output_file (w_g w_unwritable)
    <> g_log_file (w_g (client_append set_com1_record w_unwritable)) /\
  files (w_os (final (FlightLoopCallback glibc_printf_f
                        (client_append set_com1_record w_unwritable))))
    !! g_output_file (w_g w_unwritable)
  = Some (set_com1_record +:+ nl).
Proof.
  assert (g_output_file (w_g w_unwritable)
          <> tmp_file_of (client_append set_com1_record w_unwritable)) as H1
    by (vm_compute; discriminate).
  assert (g_output_file (w_g w_unwritable)
          <> g_input_file (w_g (client_append set_com1_record w_unwritable))) as H2
    by (vm_compute; discriminate).
  assert (g_output_file (w_g w_unwritable)
          <> g_log_file (w_g (client_append set_com1_record w_unwritable))) as H3
    by (vm_compute; discriminate).
  split; [exact H1 | split; [exact H2 | split; [exact H3 |]]].
  rewrite (tick_writes_three_files_at_most glibc_printf_f
             (client_append set_com1_record w_unwritable) _ H1 H2 H3).
  vm_compute. reflexivity.
Defined.

Lemma publish_replaces_publication_path_only_witness :
  can_open (w_os w_disk_full) (tmp_file_of w_disk_full) = true /\
  String.length (g_input_file (w_g w_disk_full)) <= 1019 /\
  files (w_os (final (WriteTelemetryJSON glibc_printf_f w_disk_full)))
    !! g_input_file (w_g w_disk_full) =
    Some (stored_of (quota (w_os w_disk_full))
            (Libc.cat (telemetry_lines glibc_printf_f (read_telemetry w_disk_full)))) /\
  files (w_os (final (WriteTelemetryJSON glibc_printf_f w_disk_full)))
    !! tmp_file_of w_disk_full = None /\
  (forall p, p <> tmp_file_of w_disk_full -> p <> g_input_file (w_g w_disk_full) ->
     files (w_os (final (WriteTelemetryJSON glibc_printf_f w_disk_full))) !! p
     = files (w_os w_disk_full) !! p).
Proof.
  assert (can_open (w_os w_disk_full) (tmp_file_of w_disk_full) = true) as H1
    by reflexivity.
  assert (String.length (g_input_file (w_g w_disk_full)) <= 1019) as H2
    by (apply Nat.leb_le; vm_compute; reflexivity).
  split; [exact H1 | split; [exact H2 |]].
  exact (publish_replaces_publication_path_only glibc_printf_f w_disk_full H1 H2).
Defined.

Lemma publication_path_changes_once_witness :
  can_open (w_os w_started) (tmp_file_of w_started) = true /\
  String.length (g_input_file (w_g w_started)) <= 1019 /\
  Forall (fun ew =>
            files (w_os ew.2) !! g_input_file (w_g w_started) =
              files (w_os w_started) !! g_input_file (w_g w_started) \/
            files (w_os ew.2) !! g_input_file (w_g w_started) =
              files (w_os (final (WriteTelemetryJSON glibc_printf_f w_started)))
                !! g_input_file (w_g w_started))
         (trace (WriteTelemetryJSON glibc_printf_f w_started)).
Proof.
  assert (can_open (w_os w_started) (tmp_file_of w_started) = true) as H1
    by reflexivity.
  assert (String.length (g_input_file (w_g w_started)) <= 1019) as H2
    by (apply Nat.leb_le; vm_compute; reflexivity).
  split; [exact H1 | split; [exact H2 |]].
  exact (publication_path_changes_once glibc_printf_f w_started H1 H2).
Defined.
